(** * Fraud Detection ML Service (ml_service/app.py): score normalisation
      and explanation pipeline.

    The development embeds [predict_fraud] and [generate_explanation]
    together with the request schema [TransactionRequest].

    Numbers.  A Python/NumPy float is modelled by [pyfloat]: a finite
    value carries an exact real number, and the three IEEE special
    values (+inf, -inf, nan) are kept as separate constructors with the
    IEEE rules for them.  Arithmetic on finite values is exact (no
    binary64 rounding, no overflow to infinity).  Where the rounding of
    binary64 decides a property, the lines concerned are also given on
    the doubles themselves (module [Binary64]).

    Effects.  The loaded model and scaler are external objects: every
    method call on them may raise, and is recorded in a call log. *)

From Stdlib Require Import Reals Lra Lia ZArith List String Ascii Bool.
From Stdlib Require Import Zfloor DecimalString.
From Stdlib Require PrimFloat.
Import ListNotations.

Local Open Scope string_scope.
Local Open Scope R_scope.

(* ================================================================== *)
(** ** Floats *)
(* ================================================================== *)

Inductive pyfloat : Type :=
| Fin (x : R)
| PInf
| NInf
| NaN.

Definition Rltb (x y : R) : bool := if Rlt_dec x y then true else false.
Definition Reqb (x y : R) : bool := if Req_dec_T x y then true else false.

Module Float.

(** [x > y], [x < y], [x >= y], [x <= y]: every comparison with nan is
    false. *)
Definition ltb (x y : pyfloat) : bool :=
  match x, y with
  | NaN, _ | _, NaN => false
  | Fin a, Fin b => Rltb a b
  | NInf, NInf => false
  | NInf, _ => true
  | _, NInf => false
  | PInf, _ => false
  | Fin _, PInf => true
  end.

Definition gtb (x y : pyfloat) : bool := ltb y x.

Definition eqb (x y : pyfloat) : bool :=
  match x, y with
  | Fin a, Fin b => Reqb a b
  | PInf, PInf | NInf, NInf => true
  | _, _ => false
  end.

Definition leb (x y : pyfloat) : bool := ltb x y || eqb x y.
Definition geb (x y : pyfloat) : bool := leb y x.

Definition neg (x : pyfloat) : pyfloat :=
  match x with
  | Fin a => Fin (- a)
  | PInf => NInf
  | NInf => PInf
  | NaN => NaN
  end.

Definition abs (x : pyfloat) : pyfloat :=
  match x with
  | Fin a => Fin (Rabs a)
  | PInf | NInf => PInf
  | NaN => NaN
  end.

Definition add (x y : pyfloat) : pyfloat :=
  match x, y with
  | NaN, _ | _, NaN => NaN
  | Fin a, Fin b => Fin (a + b)
  | PInf, NInf | NInf, PInf => NaN
  | PInf, _ | _, PInf => PInf
  | NInf, _ | _, NInf => NInf
  end.

Definition sub (x y : pyfloat) : pyfloat := add x (neg y).

(** Sign of a finite value: -1, 0 or 1. *)
Definition sgn (a : R) : Z :=
  if Rltb a 0 then (-1)%Z else if Rltb 0 a then 1%Z else 0%Z.

Definition signed_inf (s : Z) : pyfloat :=
  match s with
  | Z0 => NaN
  | Zpos _ => PInf
  | Zneg _ => NInf
  end.

Definition mul (x y : pyfloat) : pyfloat :=
  match x, y with
  | NaN, _ | _, NaN => NaN
  | Fin a, Fin b => Fin (a * b)
  | Fin a, PInf | PInf, Fin a => signed_inf (sgn a)
  | Fin a, NInf | NInf, Fin a => signed_inf (- sgn a)
  | PInf, PInf | NInf, NInf => PInf
  | PInf, NInf | NInf, PInf => NInf
  end.

(** NumPy scalar division: a zero divisor gives an infinity (or nan for
    0/0) and a warning, not an exception. *)
Definition div (x y : pyfloat) : pyfloat :=
  match x, y with
  | NaN, _ | _, NaN => NaN
  | Fin a, Fin b => if Reqb b 0 then signed_inf (sgn a) else Fin (a / b)
  | Fin _, (PInf | NInf) => Fin 0
  | PInf, Fin b => if Rltb b 0 then NInf else PInf
  | NInf, Fin b => if Rltb b 0 then PInf else NInf
  | (PInf | NInf), (PInf | NInf) => NaN
  end.

(** [np.exp]. *)
Definition exp (x : pyfloat) : pyfloat :=
  match x with
  | Fin a => Fin (Rtrigo_def.exp a)
  | PInf => PInf
  | NInf => Fin 0
  | NaN => NaN
  end.

(** The builtins [min(a, b)] and [max(a, b)]: the first argument is
    kept unless the second compares strictly below (above) it. *)
Definition min (a b : pyfloat) : pyfloat := if ltb b a then b else a.
Definition max (a b : pyfloat) : pyfloat := if gtb b a then b else a.

(** Truth value of a float in a boolean context: only zero is false. *)
Definition truthy (x : pyfloat) : bool :=
  match x with
  | Fin a => negb (Reqb a 0)
  | _ => true
  end.


End Float.

(** Round to the nearest integer, ties to the even one. *)
Definition rint (x : R) : Z :=
  let f := Zfloor x in
  let d := x - IZR f in
  if Rltb d (1 / 2) then f
  else if Rltb (1 / 2) d then (f + 1)%Z
  else if Z.even f then f else (f + 1)%Z.

(** [round(x, ndigits)] on a float. *)
Definition py_round (x : pyfloat) (ndigits : nat) : pyfloat :=
  match x with
  | Fin a => Fin (IZR (rint (a * 10 ^ ndigits)) / 10 ^ ndigits)
  | _ => x
  end.

(* ================================================================== *)
(** ** String formatting *)
(* ================================================================== *)

(** Decimal digits of a natural number, [str(n)]. *)
Definition digits (n : N) : string := NilZero.string_of_uint (N.to_uint n).

(** [str(z)] for an int. *)
Definition str_int (z : Z) : string :=
  match z with
  | Zneg p => "-" ++ digits (Npos p)
  | _ => digits (Z.to_N z)
  end.

(** Insert a comma every three digits, scanning from the least
    significant digit; [k] counts the digits of the current group. *)
Fixpoint group3 (rev_digits : list ascii) (k : nat) : list ascii :=
  match rev_digits with
  | [] => []
  | c :: tl =>
      match k with
      | 3%nat => ","%char :: c :: group3 tl 1
      | _ => c :: group3 tl (S k)
      end
  end.

Definition thousands (s : string) : string :=
  string_of_list_ascii
    (rev (group3 (rev (list_ascii_of_string s)) 0)).

Definition two_digits (n : N) : string :=
  if (n <? 10)%N then "0" ++ digits n else digits n.

(** [f"{x:.2f}"] and, with [comma], [f"{x:,.2f}"]. *)
Definition format_2f (comma : bool) (x : pyfloat) : string :=
  match x with
  | Fin a =>
      let n := Z.to_N (rint (Rabs a * 100)) in
      let int_part := digits (n / 100) in
      (if Rltb a 0 then "-" else "")
        ++ (if comma then thousands int_part else int_part)
        ++ "." ++ two_digits (n mod 100)
  | PInf => "inf"
  | NInf => "-inf"
  | NaN => "nan"
  end.

(* ================================================================== *)
(** ** Request and response schemas *)
(* ================================================================== *)

(** [TransactionRequest]: every [Optional[...]] field may hold [None]. *)
Record TransactionRequest : Type := {
  amount : pyfloat;
  accountAgeDays : option Z;
  confidence : option pyfloat;
  totalCost : option pyfloat;
  newAccount : option bool;
  internationalTransfer : option bool;
  unusualHour : option bool;
  riskFlagCount : option Z
}.

Module Response.
Record FraudPredictionResponse : Type := {
  anomalyScore : pyfloat;
  isAnomaly : bool;
  confidence : pyfloat;
  explanation : string
}.
End Response.
Abbreviation FraudPredictionResponse := Response.FraudPredictionResponse.

Record HTTPException : Type := {
  status_code : Z;
  detail : string
}.

(** A member of the request body: left out, sent as [null], or sent with
    a value of the declared type. *)
Inductive field (A : Type) : Type :=
| Absent
| Null
| Given (a : A).
Arguments Absent {A}.
Arguments Null {A}.
Arguments Given {A} a.

Record Payload : Type := {
  p_amount : field pyfloat;
  p_accountAgeDays : field Z;
  p_confidence : field pyfloat;
  p_totalCost : field pyfloat;
  p_newAccount : field bool;
  p_internationalTransfer : field bool;
  p_unusualHour : field bool;
  p_riskFlagCount : field Z
}.

(** [Field(..., <constraints>)]: a required field of a non-optional type. *)
Definition required {A : Type} (ok : A -> bool) (f : field A) : option A :=
  match f with
  | Given a => if ok a then Some a else None
  | Absent | Null => None
  end.

(** [Optional[A] = Field(default, <constraints>)]: the default is taken
    when the member is left out, [null] is accepted as [None], and the
    constraints bear on a given value only. *)
Definition optional {A : Type} (default : option A) (ok : A -> bool)
    (f : field A) : option (option A) :=
  match f with
  | Absent => Some default
  | Null => Some None
  | Given a => if ok a then Some (Some a) else None
  end.

Definition ge0 (x : pyfloat) : bool := Float.geb x (Fin 0).
Definition le1 (x : pyfloat) : bool := Float.leb x (Fin 1).
Definition unconstrained {A : Type} (_ : A) : bool := true.

Definition name_if_invalid {A : Type} (name : string) (v : option A)
  : list string :=
  match v with
  | Some _ => []
  | None => [name]
  end.

(** Validation of the body against [TransactionRequest]; on failure the
    names of the offending members, in declaration order.  A bound
    ([ge=0], [le=1]) holds when the comparison does, and no comparison
    with nan does. *)
Definition validate (p : Payload) : list string + TransactionRequest :=
  let v_amount := required ge0 (p_amount p) in
  let v_accountAgeDays := optional None unconstrained (p_accountAgeDays p) in
  let v_confidence :=
    optional None (fun x => ge0 x && le1 x) (p_confidence p) in
  let v_totalCost := optional (Some (Fin 0.0)) ge0 (p_totalCost p) in
  let v_newAccount := optional (Some false) unconstrained (p_newAccount p) in
  let v_internationalTransfer :=
    optional (Some false) unconstrained (p_internationalTransfer p) in
  let v_unusualHour := optional (Some false) unconstrained (p_unusualHour p) in
  let v_riskFlagCount :=
    optional (Some 0%Z) (fun z => (0 <=? z)%Z) (p_riskFlagCount p) in
  match v_amount, v_accountAgeDays, v_confidence, v_totalCost,
        v_newAccount, v_internationalTransfer, v_unusualHour,
        v_riskFlagCount with
  | Some a, Some b, Some c, Some d, Some e, Some f, Some g, Some h =>
      inr {| amount := a; accountAgeDays := b; confidence := c;
             totalCost := d; newAccount := e; internationalTransfer := f;
             unusualHour := g; riskFlagCount := h |}
  | _, _, _, _, _, _, _, _ =>
      inl (name_if_invalid "amount" v_amount
           ++ name_if_invalid "accountAgeDays" v_accountAgeDays
           ++ name_if_invalid "confidence" v_confidence
           ++ name_if_invalid "totalCost" v_totalCost
           ++ name_if_invalid "newAccount" v_newAccount
           ++ name_if_invalid "internationalTransfer" v_internationalTransfer
           ++ name_if_invalid "unusualHour" v_unusualHour
           ++ name_if_invalid "riskFlagCount" v_riskFlagCount)%list
  end.

(* ================================================================== *)
(** ** The loaded capability and the effects of a request *)
(* ================================================================== *)

(** [str(e)] of a raised exception. *)
Definition exn : Type := string.

Record Scaler : Type := {
  transform : list pyfloat -> exn + list pyfloat
}.

(** The three methods used on the model, each on the single scaled row:
    the label, the sample score and the decision score of that row. *)
Record Model : Type := {
  predict : list pyfloat -> exn + Z;
  score_samples : list pyfloat -> exn + pyfloat;
  decision_function : list pyfloat -> exn + pyfloat
}.

(** The module globals [model] and [scaler] ([None] until loaded). *)
Record Globals : Type := {
  model : option Model;
  scaler : option Scaler
}.

Inductive call : Type :=
| Transform (row : list pyfloat)
| Predict (row : list pyfloat)
| ScoreSamples (row : list pyfloat)
| DecisionFunction (row : list pyfloat).

(** Computations that may raise and that append to the call log. *)
Definition Py (A : Type) : Type := list call -> (exn + A) * list call.

Definition ret {A : Type} (a : A) : Py A := fun log => (inr a, log).

Definition bind {A B : Type} (c : Py A) (k : A -> Py B) : Py B :=
  fun log =>
    match c log with
    | (inl e, log') => (inl e, log')
    | (inr a, log') => k a log'
    end.

Definition lift {A : Type} (r : exn + A) : Py A := fun log => (r, log).

Definition invoke {A : Type} (c : call) (r : exn + A) : Py A :=
  fun log => (r, app log [c]).

Declare Scope py_scope.
Delimit Scope py_scope with py.
Notation "x <- c ;; k" := (bind c (fun x => k))
  (at level 100, c at next level, right associativity) : py_scope.

(** What the endpoint answers: a rejection by request validation, a
    raised [HTTPException], or the response. *)
Inductive outcome : Type :=
| RequestValidationError (locs : list string)
| Raised (e : HTTPException)
| Returned (r : FraudPredictionResponse).

(* ================================================================== *)
(** ** generate_explanation *)
(* ================================================================== *)

Definition is_true (b : option bool) : bool :=
  match b with
  | Some true => true
  | _ => false
  end.

(** The list built by the five tests.  [riskFlagCount > 2] raises a
    TypeError when the field holds [None]. *)
Definition risk_factors (transaction : TransactionRequest)
  : exn + list string :=
  let risk_factors := [] in
  let risk_factors :=
    if Float.gtb (amount transaction) (Fin 5000)
    then app risk_factors
           ["high amount ($" ++ format_2f true (amount transaction) ++ ")"]
    else risk_factors in
  let risk_factors :=
    if is_true (newAccount transaction)
    then app risk_factors ["new account"] else risk_factors in
  let risk_factors :=
    if is_true (internationalTransfer transaction)
    then app risk_factors ["international transfer"] else risk_factors in
  let risk_factors :=
    if is_true (unusualHour transaction)
    then app risk_factors ["unusual hour"] else risk_factors in
  match riskFlagCount transaction with
  | None =>
      inl "'>' not supported between instances of 'NoneType' and 'int'"
  | Some n =>
      inr (if (n >? 2)%Z
           then app risk_factors
                    ["multiple risk flags (" ++ str_int n ++ ")"]
           else risk_factors)
  end.

Definition generate_explanation (transaction : TransactionRequest)
    (score : pyfloat) (is_anomaly : bool) : exn + string :=
  match risk_factors transaction with
  | inl e => inl e
  | inr risk_factors =>
      inr (if is_anomaly then
             match risk_factors with
             | _ :: _ =>
                 "Anomaly detected (score: " ++ format_2f false score
                   ++ "). Risk factors: " ++ concat ", " risk_factors
             | [] =>
                 "Anomaly detected (score: " ++ format_2f false score
                   ++ "). Transaction pattern deviates significantly from normal behavior."
             end
           else
             "Normal transaction (score: " ++ format_2f false score
               ++ "). No significant anomalies detected.")
  end.

(* ================================================================== *)
(** ** predict_fraud *)
(* ================================================================== *)

Definition feature_columns : list string :=
  ["amount"; "accountAgeDays"; "confidence"; "totalCost"; "newAccount";
   "internationalTransfer"; "unusualHour"; "riskFlagCount"].

(** [x or 0] on an optional int, [x or 0.0] on an optional float. *)
Definition or_int (x : option Z) (d : Z) : Z :=
  match x with
  | Some z => if (z =? 0)%Z then d else z
  | None => d
  end.

Definition or_float (x : option pyfloat) (d : pyfloat) : pyfloat :=
  match x with
  | Some v => if Float.truthy v then v else d
  | None => d
  end.

Definition of_int (z : Z) : pyfloat := Fin (IZR z).

(** Step 1: the row of the feature array. *)
Definition features (transaction : TransactionRequest) : list pyfloat :=
  [ amount transaction;
    of_int (or_int (accountAgeDays transaction) 0);
    or_float (confidence transaction) (Fin 0.0);
    or_float (totalCost transaction) (Fin 0.0);
    of_int (if is_true (newAccount transaction) then 1 else 0);
    of_int (if is_true (internationalTransfer transaction) then 1 else 0);
    of_int (if is_true (unusualHour transaction) then 1 else 0);
    of_int (or_int (riskFlagCount transaction) 0) ].

Local Open Scope py_scope.

(** The body of the [try] block. *)
Definition predict_body (model : Model) (scaler : Scaler)
    (transaction : TransactionRequest) : Py FraudPredictionResponse :=
  let features := features transaction in
  features_scaled <- invoke (Transform features) (transform scaler features) ;;
  prediction <-
    invoke (Predict features_scaled) (predict model features_scaled) ;;
  raw_score <-
    invoke (ScoreSamples features_scaled)
           (score_samples model features_scaled) ;;
  let anomaly_score :=
    if (prediction =? -1)%Z then
      let anomaly_score :=
        Float.div (Fin 1) (Float.add (Fin 1) (Float.exp raw_score)) in
      Float.max (Fin 0.5) (Float.min (Fin 1.0) anomaly_score)
    else
      let anomaly_score :=
        Float.div (Fin 1)
                  (Float.add (Fin 1) (Float.exp (Float.neg raw_score))) in
      Float.max (Fin 0.0) (Float.min (Fin 0.5) anomaly_score) in
  decision_score <-
    invoke (DecisionFunction features_scaled)
           (decision_function model features_scaled) ;;
  let normalized_score :=
    Float.div (Fin 1) (Float.add (Fin 1) (Float.exp decision_score)) in
  let anomaly_score := normalized_score in
  let is_anomaly := Float.gtb anomaly_score (Fin 0.5) in
  explanation <-
    lift (generate_explanation transaction anomaly_score is_anomaly) ;;
  let confidence :=
    Float.mul (Float.abs (Float.sub anomaly_score (Fin 0.5))) (Fin 2) in
  ret {| Response.anomalyScore := py_round anomaly_score 4;
         Response.isAnomaly := is_anomaly;
         Response.confidence := py_round confidence 4;
         Response.explanation := explanation |}.

Definition predict_fraud (g : Globals) (transaction : TransactionRequest)
    (log : list call) : outcome * list call :=
  match model g, scaler g with
  | Some model, Some scaler =>
      match predict_body model scaler transaction log with
      | (inr response, log') => (Returned response, log')
      | (inl e, log') =>
          (Raised {| status_code := 500;
                     detail := "Prediction failed: " ++ e |}, log')
      end
  | _, _ =>
      (Raised {| status_code := 503; detail := "Model not loaded" |}, log)
  end.

(** POST /predict: the body is validated against the schema before the
    handler is entered. *)
Definition post_predict (g : Globals) (p : Payload) (log : list call)
  : outcome * list call :=
  match validate p with
  | inl locs => (RequestValidationError locs, log)
  | inr transaction => predict_fraud g transaction log
  end.

(* ================================================================== *)
(** ** The local variables of predict_fraud as functions *)
(* ================================================================== *)

(** [normalized_score], hence the final [anomaly_score], as a function of
    [decision_score]. *)
Definition normalized_score (decision_score : pyfloat) : pyfloat :=
  Float.div (Fin 1) (Float.add (Fin 1) (Float.exp decision_score)).

(** [is_anomaly] and [confidence] as functions of [anomaly_score]. *)
Definition is_anomaly (anomaly_score : pyfloat) : bool :=
  Float.gtb anomaly_score (Fin 0.5).

Definition confidence_of (anomaly_score : pyfloat) : pyfloat :=
  Float.mul (Float.abs (Float.sub anomaly_score (Fin 0.5))) (Fin 2).

(** The response built at the end of the [try] block from the unrounded
    [anomaly_score] and the explanation. *)
Definition response_of (anomaly_score : pyfloat) (explanation : string)
  : FraudPredictionResponse :=
  {| Response.anomalyScore := py_round anomaly_score 4;
     Response.isAnomaly := is_anomaly anomaly_score;
     Response.confidence := py_round (confidence_of anomaly_score) 4;
     Response.explanation := explanation |}.

(** The decision score obtained for a request, when the capability is
    loaded and none of its four calls raises. *)
Definition decision_score_of (g : Globals) (transaction : TransactionRequest)
  : option pyfloat :=
  match model g, scaler g with
  | Some m, Some s =>
      match transform s (features transaction) with
      | inr features_scaled =>
          match predict m features_scaled,
                score_samples m features_scaled,
                decision_function m features_scaled with
          | inr _, inr _, inr d => Some d
          | _, _, _ => None
          end
      | inl _ => None
      end
  | _, _ => None
  end.

(** The logistic squash on the reals. *)
Definition logistic (r : R) : R := 1 / (1 + exp r).

(** A decision score whose squash is 0.50001: just above the
    threshold, and rounded to 0.5 at four decimals. *)
Definition near_threshold : R := ln (49999 / 50001).

(** The pipeline reduced to the decision-function path: scaling, the
    decision score, its squash, and the response derived from it.  It
    neither asks the model for a label or a sample score nor computes
    the two label-based sigmoids. *)
Definition simplified_body (model : Model) (scaler : Scaler)
    (transaction : TransactionRequest) : Py FraudPredictionResponse :=
  let features := features transaction in
  features_scaled <- invoke (Transform features) (transform scaler features) ;;
  decision_score <-
    invoke (DecisionFunction features_scaled)
           (decision_function model features_scaled) ;;
  let anomaly_score :=
    Float.div (Fin 1) (Float.add (Fin 1) (Float.exp decision_score)) in
  let is_anomaly := Float.gtb anomaly_score (Fin 0.5) in
  explanation <-
    lift (generate_explanation transaction anomaly_score is_anomaly) ;;
  let confidence :=
    Float.mul (Float.abs (Float.sub anomaly_score (Fin 0.5))) (Fin 2) in
  ret {| Response.anomalyScore := py_round anomaly_score 4;
         Response.isAnomaly := is_anomaly;
         Response.confidence := py_round confidence 4;
         Response.explanation := explanation |}.

Definition simplified_predict (g : Globals)
    (transaction : TransactionRequest) (log : list call)
  : outcome * list call :=
  match model g, scaler g with
  | Some model, Some scaler =>
      match simplified_body model scaler transaction log with
      | (inr response, log') => (Returned response, log')
      | (inl e, log') =>
          (Raised {| status_code := 500;
                     detail := "Prediction failed: " ++ e |}, log')
      end
  | _, _ =>
      (Raised {| status_code := 503; detail := "Model not loaded" |}, log)
  end.

(** The full pipeline without the [if prediction == -1 ... else ...]
    statement: the label and the sample score are still fetched. *)
Definition body_without_label_branch (model : Model) (scaler : Scaler)
    (transaction : TransactionRequest) : Py FraudPredictionResponse :=
  let features := features transaction in
  features_scaled <- invoke (Transform features) (transform scaler features) ;;
  prediction <-
    invoke (Predict features_scaled) (predict model features_scaled) ;;
  raw_score <-
    invoke (ScoreSamples features_scaled)
           (score_samples model features_scaled) ;;
  decision_score <-
    invoke (DecisionFunction features_scaled)
           (decision_function model features_scaled) ;;
  let anomaly_score :=
    Float.div (Fin 1) (Float.add (Fin 1) (Float.exp decision_score)) in
  let is_anomaly := Float.gtb anomaly_score (Fin 0.5) in
  explanation <-
    lift (generate_explanation transaction anomaly_score is_anomaly) ;;
  let confidence :=
    Float.mul (Float.abs (Float.sub anomaly_score (Fin 0.5))) (Fin 2) in
  ret {| Response.anomalyScore := py_round anomaly_score 4;
         Response.isAnomaly := is_anomaly;
         Response.confidence := py_round confidence 4;
         Response.explanation := explanation |}.

(** The two calls that feed the label branch, [model.predict] and
    [model.score_samples], return for this request (or are never
    reached: capability not loaded, or [transform] raised). *)
Definition label_calls_return (g : Globals) (transaction : TransactionRequest)
  : bool :=
  match model g, scaler g with
  | Some m, Some s =>
      match transform s (features transaction) with
      | inr features_scaled =>
          match predict m features_scaled,
                score_samples m features_scaled with
          | inr _, inr _ => true
          | _, _ => false
          end
      | inl _ => true
      end
  | _, _ => true
  end.


(* ================================================================== *)
(** ** Stand-in capabilities and requests used in examples *)
(* ================================================================== *)

(** A scaler that returns the row unchanged. *)
Definition identity_scaler : Scaler := {| transform := fun row => inr row |}.

(** A model answering the same label, sample score and decision score
    for every row. *)
Definition constant_model (label : Z) (raw decision : pyfloat) : Model :=
  {| predict := fun _ => inr label;
     score_samples := fun _ => inr raw;
     decision_function := fun _ => inr decision |}.

Definition loaded (m : Model) : Globals :=
  {| model := Some m; scaler := Some identity_scaler |}.



(** The scaler is loaded, the model is not. *)
Definition model_missing : Globals :=
  {| model := None; scaler := Some identity_scaler |}.

(** A body that carries [amount] only. *)
Definition body_amount_only (a : pyfloat) : Payload :=
  {| p_amount := Given a; p_accountAgeDays := Absent;
     p_confidence := Absent; p_totalCost := Absent;
     p_newAccount := Absent; p_internationalTransfer := Absent;
     p_unusualHour := Absent; p_riskFlagCount := Absent |}.

(** Column lookup by name in a feature row laid out as
    [feature_columns]. *)
Fixpoint index_of (name : string) (names : list string) : option nat :=
  match names with
  | [] => None
  | x :: tl =>
      if String.eqb name x then Some 0%nat
      else option_map S (index_of name tl)
  end.

Definition column (name : string) (row : list pyfloat) : option pyfloat :=
  match index_of name feature_columns with
  | Some i => nth_error row i
  | None => None
  end.

(** A body member was left out or sent as [null]. *)
Definition missing {A : Type} (f : field A) : Prop :=
  f = Absent \/ f = Null.

Definition flag (b : bool) : pyfloat := of_int (if b then 1 else 0).

(** Some clause of the list starts with the given words. *)
Definition has_clause (start : string) (clauses : list string) : bool :=
  existsb (String.prefix start) clauses.

(** The clauses in scan order, for a request whose risk-flag count is
    [n]: each indicator contributes its clause or nothing. *)
Definition clauses_in_scan_order (t : TransactionRequest) (n : Z)
  : list string :=
  List.concat
    [ if Float.gtb (amount t) (Fin 5000)
      then ["high amount ($" ++ format_2f true (amount t) ++ ")"] else [];
      if is_true (newAccount t) then ["new account"] else [];
      if is_true (internationalTransfer t)
      then ["international transfer"] else [];
      if is_true (unusualHour t) then ["unusual hour"] else [];
      if (n >? 2)%Z
      then ["multiple risk flags (" ++ str_int n ++ ")"] else [] ].

(** The three templates. *)
Definition template_risk_factors (score : pyfloat) (clauses : list string)
  : string :=
  "Anomaly detected (score: " ++ format_2f false score
    ++ "). Risk factors: " ++ concat ", " clauses.

Definition template_no_indicator (score : pyfloat) : string :=
  "Anomaly detected (score: " ++ format_2f false score
    ++ "). Transaction pattern deviates significantly from normal behavior.".

Definition template_normal (score : pyfloat) : string :=
  "Normal transaction (score: " ++ format_2f false score
    ++ "). No significant anomalies detected.".

(** A body that sends [riskFlagCount] as null, and the request it is
    validated to. *)
Definition body_null_risk_flags : Payload :=
  {| p_amount := Given (Fin 100); p_accountAgeDays := Absent;
     p_confidence := Absent; p_totalCost := Absent;
     p_newAccount := Absent; p_internationalTransfer := Absent;
     p_unusualHour := Absent; p_riskFlagCount := Null |}.

Definition null_risk_flags : TransactionRequest :=
  {| amount := Fin 100; accountAgeDays := None; confidence := None;
     totalCost := Some (Fin 0.0); newAccount := Some false;
     internationalTransfer := Some false; unusualHour := Some false;
     riskFlagCount := None |}.

(** A request at both thresholds: amount 5000 and two risk flags. *)
Definition at_thresholds : TransactionRequest :=
  {| amount := Fin 5000; accountAgeDays := None; confidence := None;
     totalCost := Some (Fin 0.0); newAccount := Some false;
     internationalTransfer := Some false; unusualHour := Some false;
     riskFlagCount := Some 2%Z |}.

(** Scenario C: five risk flags, everything else at its default. *)
Definition scenario_C : TransactionRequest :=
  {| amount := Fin 100; accountAgeDays := None; confidence := None;
     totalCost := Some (Fin 0.0); newAccount := Some false;
     internationalTransfer := Some false; unusualHour := Some false;
     riskFlagCount := Some 5%Z |}.

(** Scenario B: amount 7500.50 on a new account. *)
Definition scenario_B : TransactionRequest :=
  {| amount := Fin 7500.50; accountAgeDays := None; confidence := None;
     totalCost := Some (Fin 0.0); newAccount := Some true;
     internationalTransfer := Some false; unusualHour := Some false;
     riskFlagCount := Some 0%Z |}.

(** The request obtained from a body that carries [amount] only. *)
Definition amount_only (a : pyfloat) : TransactionRequest :=
  {| amount := a; accountAgeDays := None; confidence := None;
     totalCost := Some (Fin 0.0); newAccount := Some false;
     internationalTransfer := Some false; unusualHour := Some false;
     riskFlagCount := Some 0%Z |}.

(* ================================================================== *)
(** ** Startup and health endpoints *)
(* ================================================================== *)

Definition MODEL_PATH : string := "isolation_forest_model.pkl".
Definition SCALER_PATH : string := "feature_scaler.pkl".

(** Exceptions as the two [except] clauses of [load_model] tell them
    apart, each with its [str(e)]. *)
Inductive raised : Type :=
| FileNotFoundError (msg : string)
| OtherException (msg : string).

(** [open(path, 'rb')] followed by [pickle.load]: the object stored at a
    path, or the exception raised on the way.  A loaded object is seen
    through the methods that [predict_fraud] calls on it (a method it
    lacks is one that raises). *)
Record Disk : Type := {
  unpickle_model : string -> raised + Model;
  unpickle_scaler : string -> raised + Scaler
}.

(** The module globals and what has been printed so far. *)
Record Process : Type := {
  globals : Globals;
  stdout : list string
}.

Definition print (line : string) (p : Process) : Process :=
  {| globals := globals p; stdout := app (stdout p) [line] |}.

Definition set_model (m : Model) (p : Process) : Process :=
  {| globals := {| model := Some m; scaler := scaler (globals p) |};
     stdout := stdout p |}.

Definition set_scaler (s : Scaler) (p : Process) : Process :=
  {| globals := {| model := model (globals p); scaler := Some s |};
     stdout := stdout p |}.

(** The startup hook: the [try] block, then the two [except] clauses,
    each of which prints and re-raises. *)
Definition load_model (disk : Disk) (p : Process)
  : (raised + unit) * Process :=
  let attempt : (raised + unit) * Process :=
    match unpickle_model disk MODEL_PATH with
    | inl e => (inl e, p)
    | inr m =>
        let p := set_model m p in
        let p := print ("[SUCCESS] Loaded model from " ++ MODEL_PATH) p in
        match unpickle_scaler disk SCALER_PATH with
        | inl e => (inl e, p)
        | inr s =>
            let p := set_scaler s p in
            let p :=
              print ("[SUCCESS] Loaded scaler from " ++ SCALER_PATH) p in
            (inr tt, p)
        end
    end in
  match attempt with
  | (inl (FileNotFoundError msg), p) =>
      let p := print ("[ERROR] Model files not found: " ++ msg) p in
      let p :=
        print "[INFO] Run train_isolation_forest.py first to train the model"
              p in
      (inl (FileNotFoundError msg), p)
  | (inl (OtherException msg), p) =>
      let p := print ("[ERROR] Failed to load model: " ++ msg) p in
      (inl (OtherException msg), p)
  | (inr tt, p) => (inr tt, p)
  end.

Definition is_not_none {A : Type} (x : option A) : bool :=
  match x with
  | Some _ => true
  | None => false
  end.

(** GET / *)
Record RootReport : Type := {
  root_status : string;
  root_service : string;
  root_model : string;
  root_model_loaded : bool
}.

Definition root (g : Globals) : RootReport :=
  {| root_status := "healthy";
     root_service := "Fraud Detection ML Service";
     root_model := "Isolation Forest";
     root_model_loaded := is_not_none (model g) |}.

(** GET /health *)
Record HealthReport : Type := {
  health_status : string;
  model_loaded : bool;
  scaler_loaded : bool
}.

Definition health (g : Globals) : HealthReport :=
  {| health_status := "healthy";
     model_loaded := is_not_none (model g);
     scaler_loaded := is_not_none (scaler g) |}.

(** The process before the startup hook has run. *)
Definition fresh_process : Process :=
  {| globals := {| model := None; scaler := None |}; stdout := [] |}.

(** A disk holding both pickles, and one on which the scaler file is
    missing. *)
Definition disk_with (m : Model) (s : Scaler) : Disk :=
  {| unpickle_model := fun _ => inr m; unpickle_scaler := fun _ => inr s |}.

Definition disk_without_scaler (m : Model) : Disk :=
  {| unpickle_model := fun _ => inr m;
     unpickle_scaler :=
       fun path =>
         inl (FileNotFoundError
                ("[Errno 2] No such file or directory: '" ++ path ++ "'")) |}.

(* ================================================================== *)
(** ** Runs of predict_fraud *)
(* ================================================================== *)

Definition failed (e : exn) : outcome :=
  Raised {| status_code := 500; detail := "Prediction failed: " ++ e |}.

(** The ways a request can go through [predict_fraud]: the outcome and
    the calls made on the capability, in order. *)
Inductive runs (g : Globals) (t : TransactionRequest)
  : outcome -> list call -> Prop :=
| run_not_loaded :
    model g = None \/ scaler g = None ->
    runs g t (Raised {| status_code := 503; detail := "Model not loaded" |})
         []
| run_transform_raises m s e :
    model g = Some m -> scaler g = Some s ->
    transform s (features t) = inl e ->
    runs g t (failed e) [Transform (features t)]
| run_predict_raises m s fs e :
    model g = Some m -> scaler g = Some s ->
    transform s (features t) = inr fs ->
    predict m fs = inl e ->
    runs g t (failed e) [Transform (features t); Predict fs]
| run_score_samples_raises m s fs label e :
    model g = Some m -> scaler g = Some s ->
    transform s (features t) = inr fs ->
    predict m fs = inr label ->
    score_samples m fs = inl e ->
    runs g t (failed e) [Transform (features t); Predict fs; ScoreSamples fs]
| run_decision_function_raises m s fs label raw e :
    model g = Some m -> scaler g = Some s ->
    transform s (features t) = inr fs ->
    predict m fs = inr label ->
    score_samples m fs = inr raw ->
    decision_function m fs = inl e ->
    runs g t (failed e)
         [Transform (features t); Predict fs; ScoreSamples fs;
          DecisionFunction fs]
| run_explanation_raises m s fs label raw d e :
    model g = Some m -> scaler g = Some s ->
    transform s (features t) = inr fs ->
    predict m fs = inr label ->
    score_samples m fs = inr raw ->
    decision_function m fs = inr d ->
    generate_explanation t (normalized_score d)
      (is_anomaly (normalized_score d)) = inl e ->
    runs g t (failed e)
         [Transform (features t); Predict fs; ScoreSamples fs;
          DecisionFunction fs]
| run_returns m s fs label raw d e :
    model g = Some m -> scaler g = Some s ->
    transform s (features t) = inr fs ->
    predict m fs = inr label ->
    score_samples m fs = inr raw ->
    decision_function m fs = inr d ->
    generate_explanation t (normalized_score d)
      (is_anomaly (normalized_score d)) = inr e ->
    runs g t (Returned (response_of (normalized_score d) e))
         [Transform (features t); Predict fs; ScoreSamples fs;
          DecisionFunction fs].

(** A float that is a finite non-negative value or +inf. *)
Definition non_negative (v : pyfloat) : Prop :=
  v = PInf \/ exists a, v = Fin a /\ 0 <= a.


(** What the [except] clause that catches [e] prints. *)
Definition error_lines (e : raised) : list string :=
  match e with
  | FileNotFoundError msg =>
      ["[ERROR] Model files not found: " ++ msg;
       "[INFO] Run train_isolation_forest.py first to train the model"]
  | OtherException msg => ["[ERROR] Failed to load model: " ++ msg]
  end.

(** A body that carries an amount and an account age. *)
Definition body_with_age (a : pyfloat) (z : Z) : Payload :=
  {| p_amount := Given a; p_accountAgeDays := Given z;
     p_confidence := Absent; p_totalCost := Absent;
     p_newAccount := Absent; p_internationalTransfer := Absent;
     p_unusualHour := Absent; p_riskFlagCount := Absent |}.

(** Number of indicators that hold, for a risk-flag count [n]. *)
Definition indicators_holding (t : TransactionRequest) (n : Z) : nat :=
  ((if Float.gtb (amount t) (Fin 5000) then 1 else 0)
   + (if is_true (newAccount t) then 1 else 0)
   + (if is_true (internationalTransfer t) then 1 else 0)
   + (if is_true (unusualHour t) then 1 else 0)
   + (if (n >? 2)%Z then 1 else 0))%nat.

(* ================================================================== *)
(** ** The decision on doubles *)
(* ================================================================== *)

(** [normalized_score = 1 / (1 + np.exp(decision_score))] and
    [is_anomaly = anomaly_score > 0.5] computed in binary64.  [np.exp]
    is NumPy's: it is a parameter here. *)
Module Binary64.
Import PrimFloat.

Definition normalized_score (np_exp : float -> float)
    (decision_score : float) : float :=
  (1 / (1 + np_exp decision_score))%float.

Definition is_anomaly (anomaly_score : float) : bool :=
  (0.5 <? anomaly_score)%float.



End Binary64.

(* ================================================================== *)
(** ** Isolation Forest models *)
(* ================================================================== *)

(** The model is an Isolation Forest.  Its [predict] is computed from
    its [decision_function], and that one from [score_samples]: on a
    given row either the three calls return, or [predict] raises what
    [decision_function] raises. *)
Definition forest_like (m : Model) : Prop :=
  forall row,
    match decision_function m row with
    | inr _ =>
        (exists label, predict m row = inr label) /\
        (exists raw, score_samples m row = inr raw)
    | inl e => predict m row = inl e
    end.

(* ================================================================== *)
(** ** Facts on the numeric layer *)
(* ================================================================== *)

Lemma Rltb_true (x y : R) : Rltb x y = true <-> x < y.
Proof.
  unfold Rltb. destruct (Rlt_dec x y); split; intros; try easy.
Qed.

Lemma Rltb_false (x y : R) : Rltb x y = false <-> y <= x.
Proof.
  unfold Rltb. destruct (Rlt_dec x y); split; intros; try easy; lra.
Qed.

Lemma Reqb_true (x y : R) : Reqb x y = true <-> x = y.
Proof.
  unfold Reqb. destruct (Req_dec_T x y); split; intros; try easy.
Qed.

Lemma Reqb_false (x y : R) : Reqb x y = false <-> x <> y.
Proof.
  unfold Reqb. destruct (Req_dec_T x y); split; intros; try easy.
Qed.

Ltac rcases :=
  repeat match goal with
  | |- context [Rltb ?a ?b] =>
      let H := fresh "H" in
      destruct (Rltb a b) eqn:H;
      [apply Rltb_true in H | apply Rltb_false in H]
  | |- context [Reqb ?a ?b] =>
      let H := fresh "H" in
      destruct (Reqb a b) eqn:H;
      [apply Reqb_true in H | apply Reqb_false in H]
  end.

Section Rint.

Lemma rint_floor (x : R) : rint x = Zfloor x \/ rint x = (Zfloor x + 1)%Z.
Proof.
  unfold rint. rcases; auto. destruct (Z.even (Zfloor x)); auto.
Qed.

(** A real within one half of an integer rounds to it. *)
Lemma rint_near (x : R) (n : Z) :
  IZR n - 1 / 2 < x < IZR n + 1 / 2 -> rint x = n.
Proof.
  intros [Hlo Hhi]. unfold rint.
  destruct (Rle_lt_dec (IZR n) x) as [Hge | Hlt].
  - assert (Hf : Zfloor x = n) by (apply Zfloor_eq; lra).
    rewrite Hf. rcases; try lra. reflexivity.
  - assert (Hf : Zfloor x = (n - 1)%Z).
    { apply Zfloor_eq. rewrite minus_IZR. lra. }
    rewrite Hf, minus_IZR. rcases; try lra. lia.
Qed.

Lemma rint_IZR (n : Z) : rint (IZR n) = n.
Proof. apply rint_near. lra. Qed.

Lemma rint_le (x y : R) : x <= y -> (rint x <= rint y)%Z.
Proof.
  intros Hxy.
  pose proof (Zfloor_le x y Hxy) as Hf.
  destruct (Z.eq_dec (Zfloor x) (Zfloor y)) as [He | Hne].
  - unfold rint. rewrite He.
    destruct (Z.even (Zfloor y)); rcases; try lia; lra.
  - destruct (rint_floor x) as [-> | ->], (rint_floor y) as [-> | ->]; lia.
Qed.

Lemma rint_between (x : R) (a b : Z) :
  IZR a <= x <= IZR b -> (a <= rint x <= b)%Z.
Proof.
  intros [Ha Hb]. split.
  - rewrite <- (rint_IZR a). now apply rint_le.
  - rewrite <- (rint_IZR b). now apply rint_le.
Qed.

End Rint.

Section Logistic.

Lemma logistic_range (r : R) : 0 < logistic r < 1.
Proof.
  unfold logistic. pose proof (exp_pos r) as He.
  split.
  - apply Rdiv_lt_0_compat; lra.
  - assert (Hinv : / (1 + exp r) < / 1)
      by (apply Rinv_lt_contravar; lra).
    rewrite Rinv_1 in Hinv. lra.
Qed.

Lemma logistic_0 : logistic 0 = 1 / 2.
Proof. unfold logistic. rewrite exp_0. lra. Qed.

Lemma logistic_decreasing (r1 r2 : R) :
  r1 < r2 -> logistic r2 < logistic r1.
Proof.
  intros H. unfold logistic.
  pose proof (exp_pos r1). pose proof (exp_increasing _ _ H).
  unfold Rdiv. rewrite !Rmult_1_l.
  apply Rinv_lt_contravar; [nra | lra].
Qed.

Lemma logistic_antitone (r1 r2 : R) :
  r1 <= r2 -> logistic r2 <= logistic r1.
Proof.
  intros [H | ->]; [left; now apply logistic_decreasing | right; reflexivity].
Qed.

Lemma logistic_above_half (r : R) : 1 / 2 < logistic r <-> r < 0.
Proof.
  split; intros H.
  - destruct (Rlt_le_dec r 0) as [Hlt | Hge]; [assumption | exfalso].
    pose proof (logistic_antitone 0 r Hge) as Hm.
    rewrite logistic_0 in Hm. lra.
  - rewrite <- logistic_0. now apply logistic_decreasing.
Qed.

End Logistic.

(* ================================================================== *)
(** ** The pipeline on a request that gets a decision score *)
(* ================================================================== *)

Section Pipeline.

Variable g : Globals.
Variable transaction : TransactionRequest.

(** With the capability loaded and its calls returning, the outcome is
    settled by the decision score and by [generate_explanation]. *)
Lemma predict_fraud_scored (d : pyfloat) (log : list call) :
  decision_score_of g transaction = Some d ->
  fst (predict_fraud g transaction log) =
  match generate_explanation transaction (normalized_score d)
          (is_anomaly (normalized_score d)) with
  | inr e => Returned (response_of (normalized_score d) e)
  | inl x =>
      Raised {| status_code := 500; detail := "Prediction failed: " ++ x |}
  end.
Proof.
  unfold decision_score_of, predict_fraud, predict_body, bind, invoke,
    lift, ret.
  destruct (model g) as [m |]; [| discriminate].
  destruct (scaler g) as [s |]; [| discriminate].
  destruct (transform s (features transaction)) as [? | fs];
    [discriminate |].
  destruct (predict m fs) as [? | p]; [discriminate |].
  destruct (score_samples m fs) as [? | raw]; [discriminate |].
  destruct (decision_function m fs) as [? | d']; [discriminate |].
  intros [= ->].
  fold (normalized_score d).
  fold (is_anomaly (normalized_score d)).
  destruct (generate_explanation transaction (normalized_score d)
              (is_anomaly (normalized_score d))); reflexivity.
Qed.

Lemma generate_explanation_returns (n : Z) (score : pyfloat) (b : bool) :
  riskFlagCount transaction = Some n ->
  exists e, generate_explanation transaction score b = inr e.
Proof.
  intros Hn. unfold generate_explanation, risk_factors. rewrite Hn.
  eexists. reflexivity.
Qed.

Lemma predict_fraud_returns (d : pyfloat) (n : Z) (log : list call) :
  decision_score_of g transaction = Some d ->
  riskFlagCount transaction = Some n ->
  exists e,
    generate_explanation transaction (normalized_score d)
      (is_anomaly (normalized_score d)) = inr e /\
    fst (predict_fraud g transaction log) =
    Returned (response_of (normalized_score d) e).
Proof.
  intros Hd Hn.
  destruct (generate_explanation_returns n (normalized_score d)
              (is_anomaly (normalized_score d)) Hn) as [e He].
  exists e. split; [assumption |].
  rewrite (predict_fraud_scored d log Hd), He. reflexivity.
Qed.

End Pipeline.

(* ================================================================== *)
(** ** Score normalisation *)
(* ================================================================== *)

Section Normalizer.

Lemma normalized_score_finite (r : R) :
  normalized_score (Fin r) = Fin (logistic r).
Proof.
  unfold normalized_score, logistic. cbn.
  pose proof (exp_pos r). rcases; [lra | reflexivity].
Qed.

Lemma is_anomaly_finite (s : R) : is_anomaly (Fin s) = Rltb 0.5 s.
Proof. reflexivity. Qed.

Lemma confidence_of_finite (s : R) :
  confidence_of (Fin s) = Fin (Rabs (s - 0.5) * 2).
Proof. reflexivity. Qed.

Lemma pow10_4 : 10 ^ 4 = 10000.
Proof. simpl. lra. Qed.

(** Rounding to four decimals keeps a value of [0,1] inside [0,1]. *)
Lemma round4_unit_interval (s : R) :
  0 <= s <= 1 ->
  exists y, py_round (Fin s) 4 = Fin y /\ 0 <= y <= 1.
Proof.
  intros Hs. eexists. split; [reflexivity |].
  rewrite pow10_4.
  destruct (rint_between (s * 10000) 0 10000) as [Hlo Hhi]; [lra |].
  apply IZR_le in Hlo, Hhi. lra.
Qed.

(** Rounding to four decimals is monotone. *)
Lemma round4_monotone (s1 s2 : R) :
  s1 <= s2 ->
  exists y1 y2,
    py_round (Fin s1) 4 = Fin y1 /\ py_round (Fin s2) 4 = Fin y2 /\
    y1 <= y2.
Proof.
  intros Hs. do 2 eexists. split; [reflexivity |]. split; [reflexivity |].
  rewrite pow10_4.
  assert (Hr : (rint (s1 * 10000) <= rint (s2 * 10000))%Z)
    by (apply rint_le; lra).
  apply IZR_le in Hr. lra.
Qed.

End Normalizer.

(** C1.  When the scoring capability returns a finite decision score
    [r] for a request, the pipeline's anomaly score is the logistic
    squash [1 / (1 + exp r)]: the outcome is the response derived from
    that value (or the 500 error when the explanation cannot be built).
    The squash lies in [0,1], does not increase when [r] grows, and is
    0.5 at [r = 0]; the same bounds and monotonicity hold for the score
    surfaced after rounding to four decimals. *)
Theorem C1_anomaly_score_is_logistic_squash
    (g : Globals) (t : TransactionRequest) (r : R) (log : list call)
    (Hscore : decision_score_of g t = Some (Fin r)) :
  let s := 1 / (1 + exp r) in
  normalized_score (Fin r) = Fin s /\
  fst (predict_fraud g t log) =
    match generate_explanation t (Fin s) (is_anomaly (Fin s)) with
    | inr e => Returned (response_of (Fin s) e)
    | inl x =>
        Raised {| status_code := 500; detail := "Prediction failed: " ++ x |}
    end /\
  0 <= s <= 1 /\
  (forall r', r <= r' -> 1 / (1 + exp r') <= s) /\
  (r = 0 -> s = 0.5) /\
  (exists y, py_round (Fin s) 4 = Fin y /\ 0 <= y <= 1) /\
  (forall r', r <= r' ->
     exists y' y, py_round (Fin (1 / (1 + exp r'))) 4 = Fin y' /\
                  py_round (Fin s) 4 = Fin y /\ y' <= y).
Proof.
  intros s. fold (logistic r) in s. subst s.
  pose proof (logistic_range r) as Hrange.
  repeat split.
  - apply normalized_score_finite.
  - rewrite (predict_fraud_scored g t (Fin r) log Hscore).
    rewrite normalized_score_finite. reflexivity.
  - lra.
  - lra.
  - intros r' Hr. now apply logistic_antitone.
  - intros ->. rewrite logistic_0. lra.
  - apply round4_unit_interval. lra.
  - intros r' Hr. apply round4_monotone. now apply logistic_antitone.
Qed.

Lemma C1_witness :
  decision_score_of (loaded (constant_model 1 (Fin 0) (Fin 0)))
    (amount_only (Fin 100)) = Some (Fin 0) /\
  normalized_score (Fin 0) = Fin (1 / (1 + exp 0)) /\
  0 <= 1 / (1 + exp 0) <= 1 /\
  1 / (1 + exp 0) = 0.5.
Proof.
  split; [reflexivity |].
  destruct (C1_anomaly_score_is_logistic_squash
              (loaded (constant_model 1 (Fin 0) (Fin 0)))
              (amount_only (Fin 100)) 0 [] eq_refl)
    as (Hn & _ & Hr & _ & H0 & _).
  split; [exact Hn |]. split; [exact Hr | exact (H0 eq_refl)].
Defined.

Section Decision.


Lemma logistic_near_threshold : logistic near_threshold = 50001 / 100000.
Proof.
  unfold logistic, near_threshold. rewrite exp_ln by lra. lra.
Qed.

Lemma near_threshold_negative : near_threshold < 0.
Proof.
  apply logistic_above_half. rewrite logistic_near_threshold. lra.
Qed.

Lemma round4_near_threshold :
  py_round (Fin (logistic near_threshold)) 4 = Fin 0.5.
Proof.
  rewrite logistic_near_threshold. unfold py_round. rewrite pow10_4.
  rewrite (rint_near _ 5000) by lra. f_equal. lra.
Qed.

End Decision.

Section TinyScores.

Import PrimFloat.





End TinyScores.




(* ================================================================== *)
(** ** Availability of the capability *)
(* ================================================================== *)

(** C7.  When the model or the scaler is not loaded, [predict_fraud]
    raises HTTP 503 "Model not loaded" for every request and leaves the
    call log as it was: no scaling or scoring call is made.  Through the
    endpoint no body ever gets a response, and no call is made either. *)
Theorem C7_unloaded_capability_is_unavailable
    (g : Globals) (Hmissing : model g = None \/ scaler g = None) :
  (forall t log,
     predict_fraud g t log =
     (Raised {| status_code := 503; detail := "Model not loaded" |}, log)) /\
  (forall p log,
     snd (post_predict g p log) = log /\
     (forall resp, fst (post_predict g p log) <> Returned resp) /\
     (forall t, validate p = inr t ->
        fst (post_predict g p log) =
        Raised {| status_code := 503; detail := "Model not loaded" |})).
Proof.
  assert (H503 : forall t log,
             predict_fraud g t log =
             (Raised {| status_code := 503; detail := "Model not loaded" |},
              log)).
  { intros t log. unfold predict_fraud.
    destruct Hmissing as [-> | Hs]; [reflexivity |].
    rewrite Hs. destruct (model g); reflexivity. }
  split; [exact H503 |].
  intros p log. unfold post_predict.
  destruct (validate p) as [locs | t'].
  - split; [reflexivity |]. split; [discriminate | discriminate].
  - rewrite H503. split; [reflexivity |]. split; [discriminate |].
    intros t _. reflexivity.
Qed.

Lemma C7_witness :
  (model model_missing = None \/ scaler model_missing = None) /\
  predict_fraud model_missing (amount_only (Fin 100)) [] =
  (Raised {| status_code := 503; detail := "Model not loaded" |}, []).
Proof.
  split; [left; reflexivity |].
  exact (proj1 (C7_unloaded_capability_is_unavailable model_missing
                  (or_introl eq_refl))
               (amount_only (Fin 100)) []).
Defined.

(* ================================================================== *)
(** ** Request validation and feature extraction *)
(* ================================================================== *)

Section Validation.

Variable p : Payload.
Variable t : TransactionRequest.
Hypothesis Hvalid : validate p = inr t.

(** An accepted body determines every field of the request through the
    declaration of that field. *)
Lemma validate_fields :
  required ge0 (p_amount p) = Some (amount t) /\
  optional None unconstrained (p_accountAgeDays p) = Some (accountAgeDays t) /\
  optional None (fun x => ge0 x && le1 x) (p_confidence p)
    = Some (confidence t) /\
  optional (Some (Fin 0.0)) ge0 (p_totalCost p) = Some (totalCost t) /\
  optional (Some false) unconstrained (p_newAccount p) = Some (newAccount t) /\
  optional (Some false) unconstrained (p_internationalTransfer p)
    = Some (internationalTransfer t) /\
  optional (Some false) unconstrained (p_unusualHour p)
    = Some (unusualHour t) /\
  optional (Some 0%Z) (fun z => (0 <=? z)%Z) (p_riskFlagCount p)
    = Some (riskFlagCount t).
Proof.
  revert Hvalid. unfold validate.
  destruct (required ge0 (p_amount p)); [| discriminate].
  destruct (optional None unconstrained (p_accountAgeDays p));
    [| discriminate].
  destruct (optional None (fun x => ge0 x && le1 x) (p_confidence p));
    [| discriminate].
  destruct (optional (Some (Fin 0.0)) ge0 (p_totalCost p)); [| discriminate].
  destruct (optional (Some false) unconstrained (p_newAccount p));
    [| discriminate].
  destruct (optional (Some false) unconstrained (p_internationalTransfer p));
    [| discriminate].
  destruct (optional (Some false) unconstrained (p_unusualHour p));
    [| discriminate].
  destruct (optional (Some 0%Z) (fun z => (0 <=? z)%Z) (p_riskFlagCount p));
    [| discriminate].
  intros [= <-]. cbn. repeat split.
Qed.

End Validation.

Lemma zero_literal : Fin 0.0 = Fin 0.
Proof. f_equal. lra. Qed.

Lemma or_int_given (z : Z) : of_int (or_int (Some z) 0) = of_int z.
Proof.
  unfold or_int. destruct (Z.eqb_spec z 0) as [-> | _]; reflexivity.
Qed.

Lemma or_float_given (x : pyfloat) : or_float (Some x) (Fin 0.0) = x.
Proof.
  unfold or_float, Float.truthy. destruct x as [a | | |]; try reflexivity.
  rcases; cbn; [| reflexivity]. subst a. apply zero_literal.
Qed.

(** With the capability loaded, the first call of a request is the
    scaler's [transform] on the feature row. *)
Lemma predict_fraud_first_call
    (g : Globals) (m : Model) (s : Scaler) (t : TransactionRequest)
    (log : list call) :
  model g = Some m -> scaler g = Some s ->
  exists rest,
    snd (predict_fraud g t log) = (log ++ Transform (features t) :: rest)%list.
Proof.
  intros Hm Hs.
  unfold predict_fraud, predict_body, bind, invoke, lift, ret.
  rewrite Hm, Hs.
  destruct (transform s (features t)) as [? | fs]; cbn.
  { exists []. reflexivity. }
  destruct (predict m fs); cbn.
  { exists [Predict fs]. now rewrite <- app_assoc. }
  destruct (score_samples m fs); cbn.
  { exists [Predict fs; ScoreSamples fs]. now rewrite <- !app_assoc. }
  exists [Predict fs; ScoreSamples fs; DecisionFunction fs].
  destruct (decision_function m fs); cbn.
  { now rewrite <- !app_assoc. }
  match goal with
  | |- context [generate_explanation ?a ?b ?c] =>
      destruct (generate_explanation a b c)
  end; cbn; now rewrite <- !app_assoc.
Qed.

(** C8.  For an accepted body, the feature row has the eight columns of
    [feature_columns] in that order.  A member that is left out (or sent
    as null) reaches the scoring capability as its neutral default: 0
    for accountAgeDays and riskFlagCount, 0.0 for confidence and
    totalCost, and 0 for the three flags; a member that is given reaches
    it in its own column.  The row is the argument of the first call made
    on the capability. *)
Theorem C8_missing_fields_default_in_feature_row
    (p : Payload) (t : TransactionRequest) (Hvalid : validate p = inr t) :
  List.length (features t) = List.length feature_columns /\
  List.length (features t) = 8%nat /\
  p_amount p = Given (amount t) /\
  column "amount" (features t) = Some (amount t) /\
  (missing (p_accountAgeDays p) ->
     column "accountAgeDays" (features t) = Some (Fin 0)) /\
  (missing (p_confidence p) ->
     column "confidence" (features t) = Some (Fin 0)) /\
  (missing (p_totalCost p) ->
     column "totalCost" (features t) = Some (Fin 0)) /\
  (missing (p_newAccount p) ->
     column "newAccount" (features t) = Some (Fin 0)) /\
  (missing (p_internationalTransfer p) ->
     column "internationalTransfer" (features t) = Some (Fin 0)) /\
  (missing (p_unusualHour p) ->
     column "unusualHour" (features t) = Some (Fin 0)) /\
  (missing (p_riskFlagCount p) ->
     column "riskFlagCount" (features t) = Some (Fin 0)) /\
  (forall z, p_accountAgeDays p = Given z ->
     column "accountAgeDays" (features t) = Some (of_int z)) /\
  (forall x, p_confidence p = Given x ->
     column "confidence" (features t) = Some x) /\
  (forall x, p_totalCost p = Given x ->
     column "totalCost" (features t) = Some x) /\
  (forall b, p_newAccount p = Given b ->
     column "newAccount" (features t) = Some (flag b)) /\
  (forall b, p_internationalTransfer p = Given b ->
     column "internationalTransfer" (features t) = Some (flag b)) /\
  (forall b, p_unusualHour p = Given b ->
     column "unusualHour" (features t) = Some (flag b)) /\
  (forall z, p_riskFlagCount p = Given z ->
     column "riskFlagCount" (features t) = Some (of_int z)) /\
  (forall g m s log,
     model g = Some m -> scaler g = Some s ->
     exists rest,
       snd (post_predict g p log)
       = (log ++ Transform (features t) :: rest)%list).
Proof.
  destruct (validate_fields p t Hvalid)
    as (Ha & Hage & Hconf & Hcost & Hnew & Hintl & Hhour & Hrisk).
  unfold column, features; cbn [index_of feature_columns String.eqb
    Ascii.eqb Bool.eqb option_map nth_error List.length].
  unfold required, optional, missing in *.
  repeat match goal with |- _ /\ _ => split end;
    try reflexivity.
  - destruct (p_amount p); try discriminate.
    destruct (ge0 a); [now injection Ha as -> | discriminate].
  - intros [H | H]; rewrite H in Hage; injection Hage as <-; reflexivity.
  - intros [H | H]; rewrite H in Hconf; injection Hconf as <-;
      cbn; now rewrite zero_literal.
  - intros [H | H]; rewrite H in Hcost; injection Hcost as <-.
    + now rewrite or_float_given, zero_literal.
    + cbn. now rewrite zero_literal.
  - intros [H | H]; rewrite H in Hnew; injection Hnew as <-; reflexivity.
  - intros [H | H]; rewrite H in Hintl; injection Hintl as <-; reflexivity.
  - intros [H | H]; rewrite H in Hhour; injection Hhour as <-; reflexivity.
  - intros [H | H]; rewrite H in Hrisk; injection Hrisk as <-; reflexivity.
  - intros z H. rewrite H in Hage. injection Hage as <-.
    now rewrite or_int_given.
  - intros x H. rewrite H in Hconf.
    destruct (ge0 x && le1 x); [| discriminate].
    injection Hconf as <-. now rewrite or_float_given.
  - intros x H. rewrite H in Hcost.
    destruct (ge0 x); [| discriminate].
    injection Hcost as <-. now rewrite or_float_given.
  - intros b H. rewrite H in Hnew. injection Hnew as <-.
    destruct b; reflexivity.
  - intros b H. rewrite H in Hintl. injection Hintl as <-.
    destruct b; reflexivity.
  - intros b H. rewrite H in Hhour. injection Hhour as <-.
    destruct b; reflexivity.
  - intros z H. rewrite H in Hrisk.
    destruct (0 <=? z)%Z; [| discriminate].
    injection Hrisk as <-. now rewrite or_int_given.
  - intros g m s log Hm Hs. unfold post_predict. rewrite Hvalid.
    exact (predict_fraud_first_call g m s t log Hm Hs).
Qed.

Lemma ge0_finite (x : R) : 0 <= x -> ge0 (Fin x) = true.
Proof.
  intros H. unfold ge0, Float.geb, Float.leb, Float.ltb, Float.eqb.
  rcases; try reflexivity. lra.
Qed.

Lemma validate_amount_only (x : R) :
  0 <= x -> validate (body_amount_only (Fin x)) = inr (amount_only (Fin x)).
Proof.
  intros H. unfold validate, body_amount_only. cbn.
  rewrite (ge0_finite x H). reflexivity.
Qed.

Lemma amount_100_accepted :
  validate (body_amount_only (Fin 100)) = inr (amount_only (Fin 100)).
Proof. apply validate_amount_only. lra. Qed.

Lemma C8_witness :
  validate (body_amount_only (Fin 100)) = inr (amount_only (Fin 100)) /\
  column "amount" (features (amount_only (Fin 100))) = Some (Fin 100) /\
  column "accountAgeDays" (features (amount_only (Fin 100))) = Some (Fin 0) /\
  column "confidence" (features (amount_only (Fin 100))) = Some (Fin 0) /\
  column "riskFlagCount" (features (amount_only (Fin 100))) = Some (Fin 0).
Proof.
  split; [exact amount_100_accepted |].
  destruct (C8_missing_fields_default_in_feature_row
              (body_amount_only (Fin 100)) (amount_only (Fin 100))
              amount_100_accepted)
    as (_ & _ & _ & Ha & Hage & Hconf & _ & _ & _ & _ & Hrisk & _).
  split; [exact Ha |].
  split; [exact (Hage (or_introl eq_refl)) |].
  split; [exact (Hconf (or_introl eq_refl)) |].
  exact (Hrisk (or_introl eq_refl)).
Defined.

(* ================================================================== *)
(** ** The explanation generator *)
(* ================================================================== *)

Section Explanation.

Lemma validate_null_risk_flags :
  validate body_null_risk_flags = inr null_risk_flags.
Proof.
  unfold validate, body_null_risk_flags. cbn.
  rewrite ge0_finite by lra. reflexivity.
Qed.

(** Formatting a non-negative value that is a whole number of cents. *)
Lemma format_2f_cents (comma : bool) (a : R) (n : Z) :
  (0 <= n)%Z -> a * 100 = IZR n ->
  format_2f comma (Fin a) =
  (if comma then thousands (digits (Z.to_N n / 100))
   else digits (Z.to_N n / 100))
    ++ "." ++ two_digits (Z.to_N n mod 100).
Proof.
  intros Hn Ha.
  assert (H0 : 0 <= a) by (apply IZR_le in Hn; lra).
  unfold format_2f.
  rewrite (Rabs_pos_eq a H0), Ha, rint_IZR.
  rcases; [lra | reflexivity].
Qed.

(** The list built by the scan, when the risk-flag count is present. *)
Lemma risk_factors_scan (t : TransactionRequest) (n : Z) :
  riskFlagCount t = Some n ->
  risk_factors t = inr (clauses_in_scan_order t n).
Proof.
  intros Hn. unfold risk_factors, clauses_in_scan_order. rewrite Hn.
  destruct (Float.gtb (amount t) (Fin 5000)),
    (is_true (newAccount t)), (is_true (internationalTransfer t)),
    (is_true (unusualHour t)), (n >? 2)%Z; reflexivity.
Qed.

Lemma generate_explanation_templates
    (t : TransactionRequest) (n : Z) (score : pyfloat) (b : bool) :
  riskFlagCount t = Some n ->
  generate_explanation t score b =
  inr (if b then
         match clauses_in_scan_order t n with
         | [] => template_no_indicator score
         | _ :: _ => template_risk_factors score (clauses_in_scan_order t n)
         end
       else template_normal score).
Proof.
  intros Hn. unfold generate_explanation.
  rewrite (risk_factors_scan t n Hn).
  destruct b; [| reflexivity].
  destruct (clauses_in_scan_order t n); reflexivity.
Qed.

End Explanation.

Lemma gtb_finite (x y : R) : Float.gtb (Fin x) (Fin y) = Rltb y x.
Proof. reflexivity. Qed.

(** Scenario B of the specification, evaluated on the code. *)
Lemma scenario_B_explanation :
  generate_explanation scenario_B (Fin 0.91) true =
  inr "Anomaly detected (score: 0.91). Risk factors: high amount ($7,500.50), new account".
Proof.
  rewrite (generate_explanation_templates scenario_B 0) by reflexivity.
  unfold clauses_in_scan_order, template_risk_factors, scenario_B.
  cbn [amount newAccount internationalTransfer unusualHour is_true].
  rewrite gtb_finite.
  replace (Rltb 5000 7500.50) with true by (symmetry; apply Rltb_true; lra).
  rewrite (format_2f_cents true 7500.50 750050) by (lia || lra).
  rewrite (format_2f_cents false 0.91 91) by (lia || lra).
  reflexivity.
Qed.

(** C4.  A body that sends [riskFlagCount] as null is accepted by the
    schema, and feature extraction reads the null as 0; the explanation
    generator compares the null with 2 and raises, for every score and
    decision, so that the request ends in HTTP 500 instead of one of the
    three explanation templates. *)
Theorem C4_null_risk_flag_count_breaks_explanation :
  validate body_null_risk_flags = inr null_risk_flags /\
  column "riskFlagCount" (features null_risk_flags) = Some (Fin 0) /\
  (forall score b,
     generate_explanation null_risk_flags score b =
     inl "'>' not supported between instances of 'NoneType' and 'int'") /\
  (forall label raw d log,
     fst (post_predict (loaded (constant_model label raw d))
            body_null_risk_flags log) =
     Raised {| status_code := 500;
               detail := "Prediction failed: '>' not supported between instances of 'NoneType' and 'int'" |}).
Proof.
  split; [exact validate_null_risk_flags |].
  split; [reflexivity |].
  split; [reflexivity |].
  intros label raw d log. unfold post_predict.
  rewrite validate_null_risk_flags.
  rewrite (predict_fraud_scored _ _ d log) by reflexivity.
  reflexivity.
Qed.

(** The explanation of a request whose risk-flag count is present is one
    of the three templates, with the score at two decimals and the
    clauses of the indicators that hold, in scan order (high amount, new
    account, international transfer, unusual hour, multiple risk flags),
    joined by a comma and a space. *)
Theorem explanation_is_one_of_three_templates
    (t : TransactionRequest) (n : Z) (score : pyfloat) (b : bool)
    (Hflags : riskFlagCount t = Some n) :
  generate_explanation t score b =
  inr (if b then
         match clauses_in_scan_order t n with
         | [] => template_no_indicator score
         | _ :: _ => template_risk_factors score (clauses_in_scan_order t n)
         end
       else template_normal score).
Proof. exact (generate_explanation_templates t n score b Hflags). Qed.

Lemma explanation_is_one_of_three_templates_witness :
  riskFlagCount scenario_B = Some 0%Z /\
  generate_explanation scenario_B (Fin 0.91) true =
  inr (match clauses_in_scan_order scenario_B 0 with
       | [] => template_no_indicator (Fin 0.91)
       | _ :: _ =>
           template_risk_factors (Fin 0.91) (clauses_in_scan_order scenario_B 0)
       end).
Proof.
  split; [reflexivity |].
  exact (explanation_is_one_of_three_templates scenario_B 0 (Fin 0.91) true
           eq_refl).
Defined.

(** C9.  The explanation does not depend on hidden state.  Take two
    requests that agree on what the generator scans (amount, the three
    flags, the risk-flag count, here present) and the same decision
    score, served by any two loaded capabilities after any two call
    histories: both get a response, and the two explanations are the same
    string, the one [generate_explanation] gives for that score and its
    flag.  In general the result of [generate_explanation], string or
    exception, is settled by the scanned fields, the score and the
    flag. *)
Theorem C9_explanation_is_deterministic
    (g1 g2 : Globals) (t1 t2 : TransactionRequest) (d : pyfloat) (n : Z)
    (log1 log2 : list call)
    (Hscore1 : decision_score_of g1 t1 = Some d)
    (Hscore2 : decision_score_of g2 t2 = Some d)
    (Hamount : amount t1 = amount t2)
    (Hnew : is_true (newAccount t1) = is_true (newAccount t2))
    (Hintl :
       is_true (internationalTransfer t1) = is_true (internationalTransfer t2))
    (Hhour : is_true (unusualHour t1) = is_true (unusualHour t2))
    (Hrisk : riskFlagCount t1 = riskFlagCount t2)
    (Hflags : riskFlagCount t1 = Some n) :
  (exists e r1 r2,
     generate_explanation t1 (normalized_score d)
       (is_anomaly (normalized_score d)) = inr e /\
     generate_explanation t2 (normalized_score d)
       (is_anomaly (normalized_score d)) = inr e /\
     fst (predict_fraud g1 t1 log1) = Returned r1 /\
     fst (predict_fraud g2 t2 log2) = Returned r2 /\
     Response.explanation r1 = e /\
     Response.explanation r2 = e) /\
  (forall t t' s b,
     amount t = amount t' ->
     is_true (newAccount t) = is_true (newAccount t') ->
     is_true (internationalTransfer t) = is_true (internationalTransfer t') ->
     is_true (unusualHour t) = is_true (unusualHour t') ->
     riskFlagCount t = riskFlagCount t' ->
     generate_explanation t s b = generate_explanation t' s b).
Proof.
  assert (Hfields : forall t t' s b,
     amount t = amount t' ->
     is_true (newAccount t) = is_true (newAccount t') ->
     is_true (internationalTransfer t) = is_true (internationalTransfer t') ->
     is_true (unusualHour t) = is_true (unusualHour t') ->
     riskFlagCount t = riskFlagCount t' ->
     generate_explanation t s b = generate_explanation t' s b).
  { intros t t' s b Ha Hn Hi Hu Hr.
    unfold generate_explanation, risk_factors.
    rewrite Ha, Hn, Hi, Hu, Hr. reflexivity. }
  split; [| exact Hfields].
  assert (Hflags2 : riskFlagCount t2 = Some n) by (now rewrite <- Hrisk).
  destruct (predict_fraud_returns g1 t1 d n log1 Hscore1 Hflags)
    as (e1 & He1 & Hout1).
  destruct (predict_fraud_returns g2 t2 d n log2 Hscore2 Hflags2)
    as (e2 & He2 & Hout2).
  assert (Hsame : e2 = e1).
  { rewrite (Hfields t1 t2 _ _ Hamount Hnew Hintl Hhour Hrisk) in He1.
    rewrite He1 in He2. now injection He2. }
  subst e2.
  exists e1, (response_of (normalized_score d) e1),
    (response_of (normalized_score d) e1).
  repeat split; assumption.
Qed.

Lemma C9_witness :
  decision_score_of (loaded (constant_model 1 (Fin 0) (Fin 0)))
    (amount_only (Fin 100)) = Some (Fin 0) /\
  decision_score_of
    (loaded (constant_model (-1) (Fin 5) (Fin 0)))
    (amount_only (Fin 100)) = Some (Fin 0) /\
  riskFlagCount (amount_only (Fin 100)) = Some 0%Z /\
  exists e r1 r2,
    fst (predict_fraud (loaded (constant_model 1 (Fin 0) (Fin 0)))
           (amount_only (Fin 100)) []) = Returned r1 /\
    fst (predict_fraud (loaded (constant_model (-1) (Fin 5) (Fin 0)))
           (amount_only (Fin 100))
           [Transform []; DecisionFunction []]) = Returned r2 /\
    Response.explanation r1 = e /\
    Response.explanation r2 = e.
Proof.
  split; [reflexivity |]. split; [reflexivity |]. split; [reflexivity |].
  destruct (C9_explanation_is_deterministic
              (loaded (constant_model 1 (Fin 0) (Fin 0)))
              (loaded (constant_model (-1) (Fin 5) (Fin 0)))
              (amount_only (Fin 100)) (amount_only (Fin 100)) (Fin 0) 0
              [] [Transform []; DecisionFunction []]
              eq_refl eq_refl eq_refl eq_refl eq_refl eq_refl eq_refl eq_refl)
    as [(e & r1 & r2 & _ & _ & H1 & H2 & He1 & He2) _].
  exists e, r1, r2. repeat split; assumption.
Defined.

(** C10.  The two thresholds are strict.  An amount of exactly 5000
    yields no "high amount" clause and a risk-flag count of exactly 2
    yields no "multiple risk flags" clause, while any amount above 5000
    and any count above 2 yield theirs. *)
Theorem C10_indicator_thresholds_are_strict :
  (forall t n,
     amount t = Fin 5000 -> riskFlagCount t = Some n ->
     exists l, risk_factors t = inr l /\ has_clause "high amount" l = false) /\
  (forall t,
     riskFlagCount t = Some 2%Z ->
     exists l, risk_factors t = inr l /\
               has_clause "multiple risk flags" l = false) /\
  (forall t x n,
     amount t = Fin x -> 5000 < x -> riskFlagCount t = Some n ->
     exists l, risk_factors t = inr l /\ has_clause "high amount" l = true) /\
  (forall t n,
     riskFlagCount t = Some n -> (2 < n)%Z ->
     exists l, risk_factors t = inr l /\
               has_clause "multiple risk flags" l = true) /\
  risk_factors at_thresholds = inr [] /\
  (forall score,
     generate_explanation at_thresholds score true =
     inr (template_no_indicator score)).
Proof.
  assert (Hnone : risk_factors at_thresholds = inr []).
  { rewrite (risk_factors_scan at_thresholds 2) by reflexivity.
    unfold clauses_in_scan_order, at_thresholds.
    cbn [amount newAccount internationalTransfer unusualHour is_true].
    rewrite gtb_finite.
    replace (Rltb 5000 5000) with false by (symmetry; apply Rltb_false; lra).
    reflexivity. }
  split; [| split; [| split; [| split; [| split]]]];
    [ | | | | exact Hnone
      | intros score; unfold generate_explanation; now rewrite Hnone ].
  - intros t n Ha Hn. eexists. split; [exact (risk_factors_scan t n Hn) |].
    unfold clauses_in_scan_order. rewrite Ha, gtb_finite.
    replace (Rltb 5000 5000) with false by (symmetry; apply Rltb_false; lra).
    destruct (is_true (newAccount t)), (is_true (internationalTransfer t)),
      (is_true (unusualHour t)), (n >? 2)%Z; reflexivity.
  - intros t Hn. eexists. split; [exact (risk_factors_scan t 2 Hn) |].
    unfold clauses_in_scan_order.
    destruct (Float.gtb (amount t) (Fin 5000)), (is_true (newAccount t)),
      (is_true (internationalTransfer t)), (is_true (unusualHour t));
      reflexivity.
  - intros t x n Ha Hx Hn. eexists.
    split; [exact (risk_factors_scan t n Hn) |].
    unfold clauses_in_scan_order. rewrite Ha, gtb_finite.
    replace (Rltb 5000 x) with true by (symmetry; now apply Rltb_true).
    reflexivity.
  - intros t n Hn Hgt. eexists.
    split; [exact (risk_factors_scan t n Hn) |].
    unfold clauses_in_scan_order.
    replace (n >? 2)%Z with true by (symmetry; apply Z.gtb_lt; lia).
    destruct (Float.gtb (amount t) (Fin 5000)), (is_true (newAccount t)),
      (is_true (internationalTransfer t)), (is_true (unusualHour t));
      reflexivity.
Qed.

(* ================================================================== *)
(** ** The label branch *)
(* ================================================================== *)

Section DeadCode.

Lemma predict_body_without_label_branch
    (m : Model) (s : Scaler) (t : TransactionRequest) (log : list call) :
  predict_body m s t log = body_without_label_branch m s t log.
Proof. reflexivity. Qed.

Lemma predict_fraud_simplified
    (g : Globals) (t : TransactionRequest) (log : list call) :
  label_calls_return g t = true ->
  fst (predict_fraud g t log) = fst (simplified_predict g t log).
Proof.
  unfold label_calls_return, predict_fraud, simplified_predict,
    predict_body, simplified_body, bind, invoke, lift, ret.
  destruct (model g) as [m |]; [| reflexivity].
  destruct (scaler g) as [s |]; [| reflexivity].
  destruct (transform s (features t)) as [? | fs]; [reflexivity |].
  destruct (predict m fs) as [? | p]; [discriminate |].
  destruct (score_samples m fs) as [? | raw]; [discriminate |].
  intros _.
  destruct (decision_function m fs) as [? | d]; [reflexivity |].
  match goal with
  | |- context [generate_explanation ?a ?b ?c] =>
      destruct (generate_explanation a b c)
  end; reflexivity.
Qed.

End DeadCode.

(** On an Isolation Forest the label and sample-score calls fail only
    as the decision function does. *)
Lemma forest_like_simplified
    (g : Globals) (t : TransactionRequest) (log : list call) :
  (forall m, model g = Some m -> forest_like m) ->
  fst (predict_fraud g t log) = fst (simplified_predict g t log).
Proof.
  intros Hforest.
  unfold predict_fraud, simplified_predict, predict_body, simplified_body,
    bind, invoke, lift, ret.
  destruct (model g) as [m |] eqn:Hm; [| reflexivity].
  destruct (scaler g) as [s |]; [| reflexivity].
  destruct (transform s (features t)) as [? | fs]; [reflexivity |].
  pose proof (Hforest m eq_refl fs) as Hrow.
  destruct (decision_function m fs) as [e | d].
  - rewrite Hrow. reflexivity.
  - destruct Hrow as [(label & ->) (raw & ->)].
    match goal with
    | |- context [generate_explanation ?a ?b ?c] =>
        destruct (generate_explanation a b c)
    end; reflexivity.
Qed.

Lemma constant_model_forest_like (label : Z) (raw d : pyfloat) :
  forest_like (constant_model label raw d).
Proof. intros row. cbn. split; eexists; reflexivity. Qed.

(** C5.  With an Isolation Forest as the loaded model, the response of
    the full pipeline is, for every request and call history, the
    response of the pipeline reduced to the decision-function path.  The
    statement [if prediction == -1: ... else: ...] is dead for every
    model: the full body computes the same outcome and log as the body
    without it, and two models with the same decision function give the
    same response whatever label and sample score they return. *)
Theorem C5_label_branch_is_dead_code
    (g : Globals) (Hforest : forall m, model g = Some m -> forest_like m) :
  (forall t log,
     fst (predict_fraud g t log) = fst (simplified_predict g t log)) /\
  (forall m s t log,
     predict_body m s t log = body_without_label_branch m s t log) /\
  (forall s m1 m2 t log1 log2,
     (forall row, decision_function m1 row = decision_function m2 row) ->
     label_calls_return {| model := Some m1; scaler := Some s |} t = true ->
     label_calls_return {| model := Some m2; scaler := Some s |} t = true ->
     fst (predict_fraud {| model := Some m1; scaler := Some s |} t log1) =
     fst (predict_fraud {| model := Some m2; scaler := Some s |} t log2)).
Proof.
  split; [| split].
  - intros t log. now apply forest_like_simplified.
  - exact predict_body_without_label_branch.
  - intros s m1 m2 t log1 log2 Hdec H1 H2.
    rewrite (predict_fraud_simplified _ t log1 H1).
    rewrite (predict_fraud_simplified _ t log2 H2).
    unfold simplified_predict, simplified_body, bind, invoke, lift, ret. cbn.
    destruct (transform s (features t)) as [? | fs]; [reflexivity |].
    rewrite (Hdec fs).
    destruct (decision_function m2 fs) as [? | d]; [reflexivity |].
    match goal with
    | |- context [generate_explanation ?a ?b ?c] =>
        destruct (generate_explanation a b c)
    end; reflexivity.
Qed.

Lemma C5_witness :
  (forall m,
     model (loaded (constant_model 1 (Fin 0) (Fin 0))) = Some m ->
     forest_like m) /\
  fst (predict_fraud (loaded (constant_model 1 (Fin 0) (Fin 0)))
         (amount_only (Fin 100)) []) =
  fst (simplified_predict (loaded (constant_model 1 (Fin 0) (Fin 0)))
         (amount_only (Fin 100)) []).
Proof.
  assert (H : forall m,
            model (loaded (constant_model 1 (Fin 0) (Fin 0))) = Some m ->
            forest_like m).
  { intros m [= <-]. intros row. cbn. split; eexists; reflexivity. }
  split; [exact H |].
  exact (proj1 (C5_label_branch_is_dead_code
                  (loaded (constant_model 1 (Fin 0) (Fin 0))) H)
               (amount_only (Fin 100)) []).
Defined.

(* ================================================================== *)
(** ** Non-finite values *)
(* ================================================================== *)

Section NonFinite.




(** What the bounds of the schema leave through. *)
Lemma ge0_accepts (x : pyfloat) :
  ge0 x = true -> x = PInf \/ exists a, x = Fin a /\ 0 <= a.
Proof.
  destruct x as [a | | |]; try discriminate; [| now left].
  unfold ge0, Float.geb, Float.leb, Float.ltb, Float.eqb.
  intros H. right. exists a. split; [reflexivity |].
  destruct (Rltb 0 a) eqn:Hlt; [apply Rltb_true in Hlt; lra |].
  destruct (Reqb 0 a) eqn:Heq; [apply Reqb_true in Heq; lra | discriminate].
Qed.


End NonFinite.



(* ================================================================== *)
(** ** The scenarios of the specification *)
(* ================================================================== *)

(** Scenario A: a small amount with every flag at its default and a
    score of 0.32 that is not anomalous. *)
Lemma scenario_A_explanation :
  generate_explanation (amount_only (Fin 100)) (Fin 0.32) false =
  inr "Normal transaction (score: 0.32). No significant anomalies detected.".
Proof.
  rewrite (generate_explanation_templates _ 0) by reflexivity.
  unfold template_normal.
  rewrite (format_2f_cents false 0.32 32) by (lia || lra).
  reflexivity.
Qed.

(** Scenario C: only the risk-flag clause is present. *)
Lemma scenario_C_explanation :
  risk_factors scenario_C = inr ["multiple risk flags (5)"] /\
  generate_explanation scenario_C (Fin 0.75) true =
  inr "Anomaly detected (score: 0.75). Risk factors: multiple risk flags (5)".
Proof.
  assert (Hl : clauses_in_scan_order scenario_C 5
               = ["multiple risk flags (5)"]).
  { unfold clauses_in_scan_order, scenario_C.
    cbn [amount newAccount internationalTransfer unusualHour is_true].
    rewrite gtb_finite.
    replace (Rltb 5000 100) with false by (symmetry; apply Rltb_false; lra).
    reflexivity. }
  split.
  - rewrite (risk_factors_scan scenario_C 5) by reflexivity. now rewrite Hl.
  - rewrite (generate_explanation_templates scenario_C 5) by reflexivity.
    rewrite Hl. unfold template_risk_factors.
    rewrite (format_2f_cents false 0.75 75) by (lia || lra).
    reflexivity.
Qed.

Section ScenarioD.

Lemma exp_INR_mult (n : nat) (x : R) : exp (INR n * x) = exp x ^ n.
Proof.
  induction n as [| n IH].
  - simpl. rewrite Rmult_0_l. apply exp_0.
  - rewrite S_INR, Rmult_plus_distr_r, Rmult_1_l, exp_plus, IH.
    simpl. ring.
Qed.

Lemma pow_101_100 :
  (19999 * 100 ^ Z.of_nat 1000 < 101 ^ Z.of_nat 1000)%Z.
Proof. vm_compute. reflexivity. Qed.

Lemma exp_10_lower_bound : 19999 < exp 10.
Proof.
  replace 10 with (INR 1000 * (1 / 100)).
  2:{ rewrite INR_IZR_INZ. simpl. lra. }
  rewrite exp_INR_mult.
  apply Rlt_le_trans with ((101 / 100) ^ 1000).
  - unfold Rdiv. rewrite Rpow_mult_distr, pow_inv, !pow_IZR.
    pose proof (IZR_lt _ _ pow_101_100) as H.
    rewrite mult_IZR in H.
    assert (Hpos : 0 < IZR (100 ^ Z.of_nat 1000)).
    { apply IZR_lt. apply Z.pow_pos_nonneg; lia. }
    revert H Hpos.
    generalize (IZR (101 ^ Z.of_nat 1000)) (IZR (100 ^ Z.of_nat 1000)).
    intros a b H Hpos.
    apply (Rmult_lt_reg_r b); [assumption |].
    rewrite Rmult_assoc, Rinv_l, Rmult_1_r by lra. exact H.
  - apply pow_incr. split; [lra |].
    pose proof (exp_ineq1_le (1 / 100)). lra.
Qed.

End ScenarioD.

(** Scenario D: a decision score of +10 is surfaced as 0.0000 and is
    not flagged. *)
Lemma scenario_D_strongly_normal :
  py_round (normalized_score (Fin 10)) 4 = Fin 0 /\
  is_anomaly (normalized_score (Fin 10)) = false.
Proof.
  rewrite normalized_score_finite.
  pose proof exp_10_lower_bound as He.
  pose proof (logistic_range 10) as [Hlo _].
  assert (Hup : logistic 10 < 1 / 20000).
  { unfold logistic, Rdiv. rewrite !Rmult_1_l.
    apply Rinv_lt_contravar; nra. }
  split.
  - unfold py_round. rewrite pow10_4.
    rewrite (rint_near _ 0) by lra. f_equal. lra.
  - rewrite is_anomaly_finite. apply Rltb_false. lra.
Qed.

(* ================================================================== *)
(** ** Every run of predict_fraud *)
(* ================================================================== *)

Section Runs.

Variable g : Globals.
Variable t : TransactionRequest.

(** [predict_fraud] follows one of the runs, appending its calls. *)
Lemma predict_fraud_runs (log : list call) :
  exists o calls,
    predict_fraud g t log = (o, (log ++ calls)%list) /\ runs g t o calls.
Proof.
  unfold predict_fraud, predict_body, bind, invoke, lift, ret.
  destruct (model g) as [m |] eqn:Hm.
  2:{ do 2 eexists. rewrite app_nil_r. split; [reflexivity |].
      apply run_not_loaded. now left. }
  destruct (scaler g) as [s |] eqn:Hs.
  2:{ do 2 eexists. rewrite app_nil_r. split; [reflexivity |].
      apply run_not_loaded. now right. }
  destruct (transform s (features t)) as [e | fs] eqn:Ht.
  { do 2 eexists. split; [reflexivity |]. eapply run_transform_raises; eauto. }
  destruct (predict m fs) as [e | label] eqn:Hp.
  { do 2 eexists. split; [now rewrite <- app_assoc |].
    eapply run_predict_raises; eauto. }
  destruct (score_samples m fs) as [e | raw] eqn:Hr.
  { do 2 eexists. split; [now rewrite <- !app_assoc |].
    eapply run_score_samples_raises; eauto. }
  destruct (decision_function m fs) as [e | d] eqn:Hd.
  { do 2 eexists. split; [now rewrite <- !app_assoc |].
    eapply run_decision_function_raises; eauto. }
  fold (normalized_score d). fold (is_anomaly (normalized_score d)).
  destruct (generate_explanation t (normalized_score d)
              (is_anomaly (normalized_score d))) as [e | e] eqn:He.
  - do 2 eexists. split; [now rewrite <- !app_assoc |].
    eapply run_explanation_raises; eauto.
  - do 2 eexists. split; [now rewrite <- !app_assoc |].
    eapply run_returns; eauto.
Qed.

Lemma prediction_failed_prefix (e : exn) :
  String.prefix "Prediction failed: " ("Prediction failed: " ++ e) = true.
Proof. cbn. destruct e; reflexivity. Qed.

End Runs.

(** The handler raises nothing but 503 and 500.  It answers 503 "Model
    not loaded" exactly when the model or the scaler is not loaded; any
    other failure is a 500 whose detail starts with "Prediction
    failed: ", and then both were loaded. *)
Theorem predict_fraud_raises_503_or_500
    (g : Globals) (t : TransactionRequest) (log : list call) :
  (forall locs, fst (predict_fraud g t log) <> RequestValidationError locs) /\
  (forall e,
     fst (predict_fraud g t log) = Raised e ->
     (status_code e = 503%Z /\ detail e = "Model not loaded" /\
      (model g = None \/ scaler g = None)) \/
     (status_code e = 500%Z /\
      String.prefix "Prediction failed: " (detail e) = true /\
      model g <> None /\ scaler g <> None)) /\
  ((model g = None \/ scaler g = None) <->
   fst (predict_fraud g t log) =
   Raised {| status_code := 503; detail := "Model not loaded" |}).
Proof.
  destruct (predict_fraud_runs g t log) as (o & calls & Heq & Hrun).
  rewrite Heq. cbn [fst].
  assert (Hloaded : forall m s, model g = Some m -> scaler g = Some s ->
                    model g <> None /\ scaler g <> None)
    by (intros m s -> ->; split; discriminate).
  split; [| split].
  - intros locs. destruct Hrun; unfold failed; discriminate.
  - intros e He.
    destruct Hrun; unfold failed in He; try discriminate;
      injection He as <-; cbn [status_code detail];
      first [ left; split; [reflexivity |]; split; [reflexivity | assumption]
            | right; split; [reflexivity |];
              split; [apply prediction_failed_prefix | eauto] ].
  - split.
    + intros Hnone.
      destruct Hrun as [ | m s ? Hm Hs | m s ? ? Hm Hs | m s ? ? ? Hm Hs
                         | m s ? ? ? ? Hm Hs | m s ? ? ? ? ? Hm Hs
                         | m s ? ? ? ? ? Hm Hs ];
        [reflexivity | | | | | | ];
        destruct Hnone as [Hn | Hn]; congruence.
    + intros Ho. destruct Hrun; unfold failed in Ho; try discriminate.
      assumption.
Qed.

(** The calls of a request.  The handler only appends to the call log,
    at most four calls; none when the capability is not loaded.  The
    scaler is called first, on the feature row, and every call on the
    model is made on the row the scaler returned.  A response is
    returned only after exactly the four calls transform, predict,
    score_samples, decision_function, in that order. *)
Theorem predict_fraud_call_discipline
    (g : Globals) (t : TransactionRequest) (log : list call) :
  exists calls,
    snd (predict_fraud g t log) = (log ++ calls)%list /\
    (List.length calls <= 4)%nat /\
    (model g = None \/ scaler g = None -> calls = []) /\
    (forall c, In c calls ->
       c = Transform (features t) \/
       exists s fs,
         scaler g = Some s /\ transform s (features t) = inr fs /\
         (c = Predict fs \/ c = ScoreSamples fs \/ c = DecisionFunction fs)) /\
    (forall r, fst (predict_fraud g t log) = Returned r ->
       exists s fs,
         scaler g = Some s /\ transform s (features t) = inr fs /\
         calls = [Transform (features t); Predict fs; ScoreSamples fs;
                  DecisionFunction fs]).
Proof.
  destruct (predict_fraud_runs g t log) as (o & calls & Heq & Hrun).
  exists calls. rewrite Heq. cbn [fst snd].
  split; [reflexivity |].
  split; [destruct Hrun; cbn; lia |].
  split.
  { intros Hnone.
    destruct Hrun as [ | m s ? Hm Hs | m s ? ? Hm Hs | m s ? ? ? Hm Hs
                       | m s ? ? ? ? Hm Hs | m s ? ? ? ? ? Hm Hs
                       | m s ? ? ? ? ? Hm Hs ];
      [reflexivity | | | | | | ];
      destruct Hnone as [Hn | Hn]; congruence. }
  split.
  - intros c Hin.
    destruct Hrun; cbn in Hin;
      repeat match goal with
      | H : _ \/ _ |- _ => destruct H
      | H : False |- _ => destruct H
      end; subst c;
      first [ now left
            | right; do 2 eexists; split; [eassumption |];
              split; [eassumption |]; auto ].
  - intros r Hr.
    destruct Hrun; unfold failed in Hr; try discriminate.
    do 2 eexists. split; [eassumption |]. split; [eassumption | reflexivity].
Qed.

(* ================================================================== *)
(** ** Invariants of a returned response *)
(* ================================================================== *)

Section ResponseInvariants.

Lemma prefix_nil (x : string) : String.prefix "" x = true.
Proof. destruct x; reflexivity. Qed.

(** A returned response is built from the squashed decision score and
    from the explanation generated for it. *)
Lemma returned_response
    (g : Globals) (t : TransactionRequest) (log : list call)
    (r : FraudPredictionResponse) :
  fst (predict_fraud g t log) = Returned r ->
  exists d e,
    decision_score_of g t = Some d /\
    generate_explanation t (normalized_score d)
      (is_anomaly (normalized_score d)) = inr e /\
    r = response_of (normalized_score d) e.
Proof.
  destruct (predict_fraud_runs g t log) as (o & calls & Heq & Hrun).
  rewrite Heq. cbn [fst]. intros Ho.
  destruct Hrun as [ | | | | | | m s fs label raw d e Hm Hs Ht Hp Hr Hd He];
    unfold failed in Ho; try discriminate.
  injection Ho as <-. exists d, e.
  split; [| split; [exact He | reflexivity]].
  unfold decision_score_of. now rewrite Hm, Hs, Ht, Hp, Hr, Hd.
Qed.

(** The squash of any decision score is nan (for nan only) or a finite
    value of [0,1]: infinite scores saturate. *)
Lemma normalized_score_cases (d : pyfloat) :
  (d = NaN /\ normalized_score d = NaN) \/
  (exists s, normalized_score d = Fin s /\ 0 <= s <= 1).
Proof.
  destruct d as [r | | |].
  - right. exists (logistic r). split; [apply normalized_score_finite |].
    pose proof (logistic_range r). lra.
  - right. exists 0. split; [reflexivity | lra].
  - right. exists (1 / (1 + 0)). split.
    + unfold normalized_score. cbn. rcases; [lra | reflexivity].
    + lra.
  - left. split; reflexivity.
Qed.

Lemma round4_bounds (s : R) (a b : Z) :
  IZR a / 10000 <= s <= IZR b / 10000 ->
  exists y, py_round (Fin s) 4 = Fin y /\
            IZR a / 10000 <= y <= IZR b / 10000.
Proof.
  intros Hs. eexists. split; [reflexivity |].
  rewrite pow10_4.
  destruct (rint_between (s * 10000) a b) as [Hlo Hhi]; [lra |].
  apply IZR_le in Hlo, Hhi. lra.
Qed.

End ResponseInvariants.

(** The text of a returned response agrees with its flag: the
    explanation starts with "Anomaly detected" exactly when [isAnomaly]
    is true and with "Normal transaction" exactly when it is false. *)
Theorem explanation_agrees_with_flag
    (g : Globals) (t : TransactionRequest) (log : list call)
    (r : FraudPredictionResponse)
    (Hreturned : fst (predict_fraud g t log) = Returned r) :
  String.prefix "Anomaly detected (score: " (Response.explanation r)
    = Response.isAnomaly r /\
  String.prefix "Normal transaction (score: " (Response.explanation r)
    = negb (Response.isAnomaly r).
Proof.
  destruct (returned_response g t log r Hreturned) as (d & e & _ & He & ->).
  cbn [response_of Response.explanation Response.isAnomaly].
  unfold generate_explanation in He.
  destruct (risk_factors t) as [? | l]; [discriminate |].
  injection He as <-.
  destruct (is_anomaly (normalized_score d)).
  - destruct l; split; cbn -[format_2f normalized_score concat];
      first [reflexivity | apply prefix_nil].
  - split; cbn -[format_2f normalized_score concat];
      first [reflexivity | apply prefix_nil].
Qed.

Lemma explanation_agrees_with_flag_witness :
  exists r,
    fst (predict_fraud (loaded (constant_model 1 (Fin 0) (Fin 0)))
           (amount_only (Fin 100)) []) = Returned r /\
    String.prefix "Anomaly detected (score: " (Response.explanation r)
      = Response.isAnomaly r /\
    String.prefix "Normal transaction (score: " (Response.explanation r)
      = negb (Response.isAnomaly r).
Proof.
  destruct (predict_fraud_returns
              (loaded (constant_model 1 (Fin 0) (Fin 0)))
              (amount_only (Fin 100)) (Fin 0) 0 [] eq_refl eq_refl)
    as (e & _ & Hout).
  eexists. split; [exact Hout |].
  exact (explanation_agrees_with_flag _ _ _ _ Hout).
Defined.

(** The numbers of a returned response agree with its flag.  Either the
    anomaly score and the confidence are both nan and the flag is false,
    or both are finite values of [0,1], the surfaced score being at
    least 0.5 when the flag is true and at most 0.5 when it is false.  No
    response carries an infinite score or confidence. *)
Theorem response_numbers_agree_with_flag
    (g : Globals) (t : TransactionRequest) (log : list call)
    (r : FraudPredictionResponse)
    (Hreturned : fst (predict_fraud g t log) = Returned r) :
  (Response.anomalyScore r = NaN /\ Response.confidence r = NaN /\
   Response.isAnomaly r = false) \/
  (exists y c,
     Response.anomalyScore r = Fin y /\ Response.confidence r = Fin c /\
     0 <= y <= 1 /\ 0 <= c <= 1 /\
     (Response.isAnomaly r = true -> 0.5 <= y) /\
     (Response.isAnomaly r = false -> y <= 0.5)).
Proof.
  destruct (returned_response g t log r Hreturned) as (d & e & _ & _ & ->).
  destruct (normalized_score_cases d) as [[_ ->] | (s & -> & Hs)].
  - left. repeat split.
  - right.
    cbn [response_of Response.anomalyScore Response.confidence
         Response.isAnomaly].
    rewrite is_anomaly_finite, confidence_of_finite.
    assert (Hc : 0 <= Rabs (s - 0.5) * 2 <= 1)
      by (unfold Rabs; destruct (Rcase_abs (s - 0.5)); lra).
    destruct (round4_bounds (Rabs (s - 0.5) * 2) 0 10000) as (c & -> & Hcb);
      [lra |].
    destruct (Rlt_le_dec 0.5 s) as [Hgt | Hle].
    + destruct (round4_bounds s 5000 10000) as (y & -> & Hyb); [lra |].
      exists y, c. repeat split; try lra.
      intros Hf. apply Rltb_false in Hf. lra.
    + destruct (round4_bounds s 0 5000) as (y & -> & Hyb); [lra |].
      exists y, c. repeat split; try lra.
      intros Ht. apply Rltb_true in Ht. lra.
Qed.

Lemma response_numbers_agree_with_flag_witness :
  exists r,
    fst (predict_fraud (loaded (constant_model 1 (Fin 0) (Fin 0)))
           (amount_only (Fin 100)) []) = Returned r /\
    ((Response.anomalyScore r = NaN /\ Response.confidence r = NaN /\
      Response.isAnomaly r = false) \/
     (exists y c,
        Response.anomalyScore r = Fin y /\ Response.confidence r = Fin c /\
        0 <= y <= 1 /\ 0 <= c <= 1 /\
        (Response.isAnomaly r = true -> 0.5 <= y) /\
        (Response.isAnomaly r = false -> y <= 0.5))).
Proof.
  destruct (predict_fraud_returns
              (loaded (constant_model 1 (Fin 0) (Fin 0)))
              (amount_only (Fin 100)) (Fin 0) 0 [] eq_refl eq_refl)
    as (e & _ & Hout).
  eexists. split; [exact Hout |].
  exact (response_numbers_agree_with_flag _ _ _ _ Hout).
Defined.

(* ================================================================== *)
(** ** Extreme and symmetric decision scores *)
(* ================================================================== *)

Section Extremes.

Lemma round4_zero : py_round (Fin 0) 4 = Fin 0.
Proof.
  unfold py_round. rewrite pow10_4, Rmult_0_l, rint_IZR. f_equal. lra.
Qed.

Lemma round4_one : py_round (Fin 1) 4 = Fin 1.
Proof.
  unfold py_round. rewrite pow10_4.
  replace (1 * 10000) with (IZR 10000) by lra.
  rewrite rint_IZR. f_equal. lra.
Qed.

Lemma normalized_score_pinf : normalized_score PInf = Fin 0.
Proof. reflexivity. Qed.

Lemma normalized_score_ninf : normalized_score NInf = Fin 1.
Proof.
  unfold normalized_score. cbn. rcases; [lra |]. f_equal. lra.
Qed.

Lemma confidence_of_extremes :
  confidence_of (Fin 0) = Fin 1 /\ confidence_of (Fin 1) = Fin 1.
Proof.
  rewrite !confidence_of_finite. split; f_equal; unfold Rabs;
    match goal with |- context [Rcase_abs ?x] => destruct (Rcase_abs x) end;
    lra.
Qed.

Lemma logistic_opp (r : R) : logistic (- r) = 1 - logistic r.
Proof.
  unfold logistic. rewrite exp_Ropp. pose proof (exp_pos r). field. lra.
Qed.

Lemma exp_10_le (r : R) : 10 <= r -> 19999 < exp r.
Proof.
  intros [H | <-]; [| exact exp_10_lower_bound].
  pose proof (exp_increasing _ _ H). pose proof exp_10_lower_bound. lra.
Qed.

Lemma logistic_large (r : R) : 10 <= r -> 0 < logistic r < 1 / 20000.
Proof.
  intros Hr. pose proof (exp_10_le r Hr) as He.
  pose proof (logistic_range r) as [Hlo _]. split; [exact Hlo |].
  unfold logistic, Rdiv. rewrite !Rmult_1_l.
  apply Rinv_lt_contravar; nra.
Qed.

End Extremes.

(** Infinite decision scores saturate instead of failing.  A decision
    score of +inf gives the response with anomaly score 0, flag false and
    confidence 1; a decision score of -inf gives anomaly score 1, flag
    true and confidence 1; in both cases the explanation is the one
    generated for that score and flag. *)
Theorem infinite_decision_scores_saturate
    (g : Globals) (t : TransactionRequest) (n : Z) (log : list call)
    (Hflags : riskFlagCount t = Some n) :
  (decision_score_of g t = Some PInf ->
   exists e,
     generate_explanation t (Fin 0) false = inr e /\
     fst (predict_fraud g t log) =
     Returned {| Response.anomalyScore := Fin 0;
                 Response.isAnomaly := false;
                 Response.confidence := Fin 1;
                 Response.explanation := e |}) /\
  (decision_score_of g t = Some NInf ->
   exists e,
     generate_explanation t (Fin 1) true = inr e /\
     fst (predict_fraud g t log) =
     Returned {| Response.anomalyScore := Fin 1;
                 Response.isAnomaly := true;
                 Response.confidence := Fin 1;
                 Response.explanation := e |}).
Proof.
  destruct confidence_of_extremes as [Hc0 Hc1].
  split; intros Hd.
  - destruct (predict_fraud_returns g t PInf n log Hd Hflags)
      as (e & He & Hout).
    rewrite normalized_score_pinf in He, Hout.
    exists e. split.
    + replace false with (is_anomaly (Fin 0)); [exact He |].
      rewrite is_anomaly_finite. apply Rltb_false. lra.
    + rewrite Hout. unfold response_of.
      rewrite Hc0, round4_zero, round4_one. f_equal. f_equal.
      rewrite is_anomaly_finite. apply Rltb_false. lra.
  - destruct (predict_fraud_returns g t NInf n log Hd Hflags)
      as (e & He & Hout).
    rewrite normalized_score_ninf in He, Hout.
    assert (Ht : is_anomaly (Fin 1) = true)
      by (rewrite is_anomaly_finite; apply Rltb_true; lra).
    rewrite Ht in He. exists e. split; [exact He |].
    rewrite Hout. unfold response_of.
    now rewrite Hc1, round4_one, Ht.
Qed.

Lemma infinite_decision_scores_saturate_witness :
  riskFlagCount (amount_only (Fin 100)) = Some 0%Z /\
  decision_score_of (loaded (constant_model 1 (Fin 0) PInf))
    (amount_only (Fin 100)) = Some PInf /\
  exists e,
    fst (predict_fraud (loaded (constant_model 1 (Fin 0) PInf))
           (amount_only (Fin 100)) []) =
    Returned {| Response.anomalyScore := Fin 0;
                Response.isAnomaly := false;
                Response.confidence := Fin 1;
                Response.explanation := e |}.
Proof.
  split; [reflexivity |]. split; [reflexivity |].
  destruct (proj1 (infinite_decision_scores_saturate
                     (loaded (constant_model 1 (Fin 0) PInf))
                     (amount_only (Fin 100)) 0 [] eq_refl) eq_refl)
    as (e & _ & Hout).
  exists e. exact Hout.
Defined.

(** Decision scores of magnitude 10 or more are surfaced as the exact
    extremes.  From +10 upwards the response carries anomaly score 0 at
    four decimals, the flag false and the text of a normal transaction
    with score 0.00; from -10 downwards it carries anomaly score 1 and
    the flag true. *)
Theorem large_decision_scores_round_to_extremes
    (g : Globals) (t : TransactionRequest) (r : R) (n : Z) (log : list call)
    (Hscore : decision_score_of g t = Some (Fin r))
    (Hflags : riskFlagCount t = Some n) :
  (10 <= r ->
   fst (predict_fraud g t log) =
   Returned {| Response.anomalyScore := Fin 0;
               Response.isAnomaly := false;
               Response.confidence :=
                 py_round (confidence_of (Fin (logistic r))) 4;
               Response.explanation :=
                 "Normal transaction (score: 0.00). No significant anomalies detected." |}) /\
  (r <= -10 ->
   exists resp,
     fst (predict_fraud g t log) = Returned resp /\
     Response.anomalyScore resp = Fin 1 /\
     Response.isAnomaly resp = true).
Proof.
  destruct (predict_fraud_returns g t (Fin r) n log Hscore Hflags)
    as (e & He & Hout).
  rewrite normalized_score_finite in He, Hout.
  split; intros Hr.
  - pose proof (logistic_large r Hr) as [Hlo Hhi].
    assert (Hflag : is_anomaly (Fin (logistic r)) = false)
      by (rewrite is_anomaly_finite; apply Rltb_false; lra).
    rewrite Hflag in He.
    rewrite (generate_explanation_templates t n _ _ Hflags) in He.
    injection He as <-.
    rewrite Hout. unfold response_of. rewrite Hflag.
    f_equal. f_equal.
    + unfold py_round. rewrite pow10_4.
      rewrite (rint_near _ 0) by lra. f_equal. lra.
    + unfold template_normal, format_2f.
      rewrite (Rabs_pos_eq (logistic r)) by lra.
      rewrite (rint_near _ 0) by lra.
      replace (Rltb (logistic r) 0) with false
        by (symmetry; apply Rltb_false; lra).
      reflexivity.
  - exists (response_of (Fin (logistic r)) e).
    split; [exact Hout |].
    assert (Hopp : 10 <= - r) by lra.
    pose proof (logistic_large (- r) Hopp) as [Hlo Hhi].
    rewrite logistic_opp in Hlo, Hhi.
    cbn [response_of Response.anomalyScore Response.isAnomaly]. split.
    + unfold py_round. rewrite pow10_4.
      rewrite (rint_near _ 10000) by lra. f_equal. lra.
    + rewrite is_anomaly_finite. apply Rltb_true. lra.
Qed.

Lemma large_decision_scores_round_to_extremes_witness :
  decision_score_of (loaded (constant_model 1 (Fin 0) (Fin 10)))
    (amount_only (Fin 100)) = Some (Fin 10) /\
  riskFlagCount (amount_only (Fin 100)) = Some 0%Z /\
  10 <= 10 /\
  fst (predict_fraud (loaded (constant_model 1 (Fin 0) (Fin 10)))
         (amount_only (Fin 100)) []) =
  Returned {| Response.anomalyScore := Fin 0;
              Response.isAnomaly := false;
              Response.confidence :=
                py_round (confidence_of (Fin (logistic 10))) 4;
              Response.explanation :=
                "Normal transaction (score: 0.00). No significant anomalies detected." |}.
Proof.
  split; [reflexivity |]. split; [reflexivity |].
  split; [apply Rle_refl |].
  exact (proj1 (large_decision_scores_round_to_extremes
                  (loaded (constant_model 1 (Fin 0) (Fin 10)))
                  (amount_only (Fin 100)) 10 0 [] eq_refl eq_refl)
               (Rle_refl 10)).
Defined.

(* ================================================================== *)
(** ** Indicators and clauses *)
(* ================================================================== *)

(** For a request whose risk-flag count is present, each clause is in
    the list exactly when its indicator holds, and the list has one
    clause per indicator that holds, so at most five. *)
Theorem clause_present_iff_indicator_holds
    (t : TransactionRequest) (n : Z) (Hflags : riskFlagCount t = Some n) :
  exists l,
    risk_factors t = inr l /\
    has_clause "high amount" l = Float.gtb (amount t) (Fin 5000) /\
    has_clause "new account" l = is_true (newAccount t) /\
    has_clause "international transfer" l
      = is_true (internationalTransfer t) /\
    has_clause "unusual hour" l = is_true (unusualHour t) /\
    has_clause "multiple risk flags" l = (n >? 2)%Z /\
    List.length l = indicators_holding t n /\
    (List.length l <= 5)%nat.
Proof.
  exists (clauses_in_scan_order t n).
  split; [exact (risk_factors_scan t n Hflags) |].
  unfold clauses_in_scan_order, indicators_holding.
  destruct (Float.gtb (amount t) (Fin 5000)), (is_true (newAccount t)),
    (is_true (internationalTransfer t)), (is_true (unusualHour t)),
    (n >? 2)%Z; cbn; repeat split; lia.
Qed.

Lemma clause_present_iff_indicator_holds_witness :
  riskFlagCount scenario_B = Some 0%Z /\
  exists l,
    risk_factors scenario_B = inr l /\
    has_clause "new account" l = true /\
    has_clause "unusual hour" l = false.
Proof.
  split; [reflexivity |].
  destruct (clause_present_iff_indicator_holds scenario_B 0 eq_refl)
    as (l & Hl & _ & Hnew & _ & Hhour & _).
  exists l. split; [exact Hl |]. split; [exact Hnew | exact Hhour].
Defined.

(* ================================================================== *)
(** ** What the schema guarantees to the handler *)
(* ================================================================== *)

Section Accepted.

Variable p : Payload.
Variable t : TransactionRequest.
Hypothesis Hvalid : validate p = inr t.

Lemma accepted_amount : non_negative (amount t).
Proof.
  destruct (validate_fields p t Hvalid) as (Ha & _).
  unfold required in Ha.
  destruct (p_amount p) as [| | a]; try discriminate.
  destruct (ge0 a) eqn:Hge; [| discriminate].
  injection Ha as <-. now apply ge0_accepts.
Qed.

Lemma accepted_confidence (x : pyfloat) :
  confidence t = Some x -> exists a, x = Fin a /\ 0 <= a <= 1.
Proof.
  destruct (validate_fields p t Hvalid) as (_ & _ & Hc & _).
  unfold optional in Hc. intros Hx. rewrite Hx in Hc.
  destruct (p_confidence p) as [| | y]; try discriminate.
  destruct (ge0 y && le1 y) eqn:Hb; [| discriminate].
  injection Hc as ->. apply andb_prop in Hb as [Hge Hle].
  destruct x as [a | | |]; try discriminate.
  exists a. split; [reflexivity |].
  destruct (ge0_accepts (Fin a) Hge) as [? | (b & [= <-] & Hb)];
    [discriminate |].
  split; [assumption |].
  unfold le1, Float.leb, Float.ltb, Float.eqb in Hle.
  destruct (Rltb a 1) eqn:Hlt; [apply Rltb_true in Hlt; lra |].
  destruct (Reqb a 1) eqn:Heq; [apply Reqb_true in Heq; lra | discriminate].
Qed.

Lemma accepted_totalCost (x : pyfloat) :
  totalCost t = Some x -> non_negative x.
Proof.
  destruct (validate_fields p t Hvalid) as (_ & _ & _ & Hc & _).
  unfold optional in Hc. intros Hx. rewrite Hx in Hc.
  destruct (p_totalCost p) as [| | y]; try discriminate.
  - injection Hc as <-. right. exists 0.0. split; [reflexivity | lra].
  - destruct (ge0 y) eqn:Hb; [| discriminate].
    injection Hc as ->. now apply ge0_accepts.
Qed.

Lemma accepted_riskFlagCount (z : Z) :
  riskFlagCount t = Some z -> (0 <= z)%Z.
Proof.
  destruct (validate_fields p t Hvalid)
    as (_ & _ & _ & _ & _ & _ & _ & Hc).
  unfold optional in Hc. intros Hx. rewrite Hx in Hc.
  destruct (p_riskFlagCount p) as [| | y]; try discriminate.
  - injection Hc as <-. lia.
  - destruct (Z.leb_spec 0 y); [| discriminate].
    injection Hc as ->. assumption.
Qed.

End Accepted.

Lemma non_negative_of_int (z : Z) : (0 <= z)%Z -> non_negative (of_int z).
Proof.
  intros Hz. right. exists (IZR z). split; [reflexivity |].
  now apply IZR_le in Hz.
Qed.

Lemma non_negative_flag (b : bool) : non_negative (flag b).
Proof. apply non_negative_of_int. destruct b; lia. Qed.

Lemma non_negative_or_float (x : option pyfloat) :
  (forall v, x = Some v -> non_negative v) ->
  non_negative (or_float x (Fin 0.0)).
Proof.
  intros H. destruct x as [v |]; cbn.
  - destruct (Float.truthy v); [now apply H |].
    right. exists 0.0. split; [reflexivity | lra].
  - right. exists 0.0. split; [reflexivity | lra].
Qed.

Lemma non_negative_or_int (x : option Z) :
  (forall z, x = Some z -> (0 <= z)%Z) ->
  non_negative (of_int (or_int x 0)).
Proof.
  intros H. apply non_negative_of_int. destruct x as [z |]; cbn; [| lia].
  destruct (Z.eqb_spec z 0); [lia | now apply H].
Qed.

(** A request that passed the schema keeps the bounds of the schema:
    the amount and the total cost are non-negative (finite or +inf), the
    confidence is a finite value of [0,1], the risk-flag count is not
    negative.  In the feature row built from it the three flag columns
    hold 0 or 1 and every column except accountAgeDays is non-negative;
    the account age has no bound, and a negative one is accepted and
    handed on as it is. *)
Theorem accepted_request_keeps_schema_bounds
    (p : Payload) (t : TransactionRequest) (Hvalid : validate p = inr t) :
  non_negative (amount t) /\
  (forall x, confidence t = Some x -> exists a, x = Fin a /\ 0 <= a <= 1) /\
  (forall x, totalCost t = Some x -> non_negative x) /\
  (forall z, riskFlagCount t = Some z -> (0 <= z)%Z) /\
  (forall name v,
     name <> "accountAgeDays" ->
     column name (features t) = Some v -> non_negative v) /\
  (forall name v,
     In name ["newAccount"; "internationalTransfer"; "unusualHour"] ->
     column name (features t) = Some v -> v = of_int 0 \/ v = of_int 1) /\
  (forall a z,
     0 <= a ->
     exists t',
       validate (body_with_age (Fin a) z) = inr t' /\
       column "accountAgeDays" (features t') = Some (of_int z)).
Proof.
  pose proof (accepted_amount p t Hvalid) as Ha.
  pose proof (accepted_confidence p t Hvalid) as Hc.
  pose proof (accepted_totalCost p t Hvalid) as Hcost.
  pose proof (accepted_riskFlagCount p t Hvalid) as Hrisk.
  split; [exact Ha |]. split; [exact Hc |]. split; [exact Hcost |].
  split; [exact Hrisk |]. split; [| split].
  - intros name v Hname. unfold column, feature_columns, index_of.
    destruct (String.eqb_spec name "amount");
      [cbn; intros [= <-]; exact Ha |].
    destruct (String.eqb_spec name "accountAgeDays"); [contradiction |].
    destruct (String.eqb_spec name "confidence").
    { cbn. intros [= <-]. apply non_negative_or_float.
      intros x Hx. destruct (Hc x Hx) as (a & -> & Hb).
      right. exists a. split; [reflexivity | lra]. }
    destruct (String.eqb_spec name "totalCost").
    { cbn. intros [= <-]. now apply non_negative_or_float. }
    destruct (String.eqb_spec name "newAccount").
    { cbn. intros [= <-]. apply (non_negative_flag (is_true (newAccount t))). }
    destruct (String.eqb_spec name "internationalTransfer").
    { cbn. intros [= <-].
      apply (non_negative_flag (is_true (internationalTransfer t))). }
    destruct (String.eqb_spec name "unusualHour").
    { cbn. intros [= <-]. apply (non_negative_flag (is_true (unusualHour t))). }
    destruct (String.eqb_spec name "riskFlagCount").
    { cbn. intros [= <-]. now apply non_negative_or_int. }
    cbn. discriminate.
  - intros name v Hin Hcol. cbn in Hin.
    destruct Hin as [<- | [<- | [<- | []]]]; cbn in Hcol;
      injection Hcol as <-;
      match goal with
      | |- context [is_true ?b] => destruct (is_true b)
      end; auto.
  - intros a z Ha0. eexists. split.
    + unfold validate, body_with_age. cbn.
      rewrite (ge0_finite a Ha0). reflexivity.
    + cbn -[or_int of_int]. now rewrite or_int_given.
Qed.

Lemma accepted_request_keeps_schema_bounds_witness :
  validate (body_amount_only (Fin 100)) = inr (amount_only (Fin 100)) /\
  non_negative (amount (amount_only (Fin 100))) /\
  exists t',
    validate (body_with_age (Fin 100) (-5)) = inr t' /\
    column "accountAgeDays" (features t') = Some (of_int (-5)).
Proof.
  split; [exact amount_100_accepted |].
  destruct (accepted_request_keeps_schema_bounds
              (body_amount_only (Fin 100)) (amount_only (Fin 100))
              amount_100_accepted)
    as (Ha & _ & _ & _ & _ & _ & Hage).
  split; [exact Ha |].
  apply Hage. lra.
Defined.

(* ================================================================== *)
(** ** Startup, health and serving *)
(* ================================================================== *)

Section Startup.

Variable disk : Disk.
Variable p : Process.

Lemma load_model_both (m : Model) (s : Scaler) :
  unpickle_model disk MODEL_PATH = inr m ->
  unpickle_scaler disk SCALER_PATH = inr s ->
  load_model disk p =
  (inr tt,
   {| globals := {| model := Some m; scaler := Some s |};
      stdout :=
        (stdout p
         ++ ["[SUCCESS] Loaded model from isolation_forest_model.pkl";
             "[SUCCESS] Loaded scaler from feature_scaler.pkl"])%list |}).
Proof.
  intros Hm Hs. unfold load_model. rewrite Hm, Hs.
  unfold print, set_scaler, set_model. cbn.
  now rewrite <- app_assoc.
Qed.

Lemma load_model_no_model (e : raised) :
  unpickle_model disk MODEL_PATH = inl e ->
  load_model disk p =
  (inl e,
   {| globals := globals p;
      stdout :=
        app (stdout p) (error_lines e) |}).
Proof.
  intros Hm. unfold load_model. rewrite Hm.
  destruct e; unfold print, error_lines; cbn;
    [now rewrite <- app_assoc | reflexivity].
Qed.

Lemma load_model_no_scaler (m : Model) (e : raised) :
  unpickle_model disk MODEL_PATH = inr m ->
  unpickle_scaler disk SCALER_PATH = inl e ->
  load_model disk p =
  (inl e,
   {| globals := {| model := Some m; scaler := scaler (globals p) |};
      stdout :=
        app (stdout p)
            ("[SUCCESS] Loaded model from isolation_forest_model.pkl"
             :: error_lines e) |}).
Proof.
  intros Hm Hs. unfold load_model. rewrite Hm, Hs.
  destruct e; unfold print, set_model, error_lines; cbn;
    now rewrite <- !app_assoc.
Qed.

End Startup.

(** The startup hook loads both objects or raises.  It returns exactly
    when both pickles load, leaving both globals set and two success
    lines printed.  Otherwise it re-raises the exception of the step
    that failed, after one error line (and the hint to run the training
    script exactly for a missing file): when the model step fails
    nothing is assigned, and when the scaler step fails the model global
    is already assigned while the scaler global keeps its old value. *)
Theorem load_model_loads_both_or_raises (disk : Disk) (p : Process) :
  (fst (load_model disk p) = inr tt <->
   exists m s,
     unpickle_model disk MODEL_PATH = inr m /\
     unpickle_scaler disk SCALER_PATH = inr s) /\
  (forall m s,
     unpickle_model disk MODEL_PATH = inr m ->
     unpickle_scaler disk SCALER_PATH = inr s ->
     load_model disk p =
     (inr tt,
      {| globals := {| model := Some m; scaler := Some s |};
         stdout :=
           (stdout p
            ++ ["[SUCCESS] Loaded model from isolation_forest_model.pkl";
                "[SUCCESS] Loaded scaler from feature_scaler.pkl"])%list |})) /\
  (forall e,
     unpickle_model disk MODEL_PATH = inl e ->
     fst (load_model disk p) = inl e /\
     globals (snd (load_model disk p)) = globals p) /\
  (forall m e,
     unpickle_model disk MODEL_PATH = inr m ->
     unpickle_scaler disk SCALER_PATH = inl e ->
     fst (load_model disk p) = inl e /\
     globals (snd (load_model disk p)) =
     {| model := Some m; scaler := scaler (globals p) |}) /\
  (forall e p',
     load_model disk p = (inl e, p') ->
     exists before,
       (before = stdout p \/
        before =
        (stdout p
         ++ ["[SUCCESS] Loaded model from isolation_forest_model.pkl"])%list) /\
       stdout p' = app before (error_lines e) /\
       (In "[INFO] Run train_isolation_forest.py first to train the model"
           (error_lines e) <->
        exists msg, e = FileNotFoundError msg)).
Proof.
  split; [| split; [| split; [| split]]].
  - split.
    + intros Hok.
      destruct (unpickle_model disk MODEL_PATH) as [e | m] eqn:Hm.
      { rewrite (load_model_no_model disk p e Hm) in Hok. discriminate. }
      destruct (unpickle_scaler disk SCALER_PATH) as [e | s] eqn:Hs.
      { rewrite (load_model_no_scaler disk p m e Hm Hs) in Hok.
        discriminate. }
      now exists m, s.
    + intros (m & s & Hm & Hs).
      now rewrite (load_model_both disk p m s Hm Hs).
  - exact (load_model_both disk p).
  - intros e Hm. now rewrite (load_model_no_model disk p e Hm).
  - intros m e Hm Hs. now rewrite (load_model_no_scaler disk p m e Hm Hs).
  - intros e p' Hload.
    assert (Hinfo :
      In "[INFO] Run train_isolation_forest.py first to train the model"
         (error_lines e) <-> exists msg, e = FileNotFoundError msg).
    { destruct e as [msg | msg]; cbn.
      - split; [intros _; now exists msg | intros _; right; now left].
      - split; [intros [H | []]; destruct msg; discriminate
               | intros (m & H); discriminate]. }
    destruct (unpickle_model disk MODEL_PATH) as [e1 | m] eqn:Hm.
    { rewrite (load_model_no_model disk p e1 Hm) in Hload.
      injection Hload as <- <-. exists (stdout p). split; [now left |].
      split; [reflexivity | exact Hinfo]. }
    destruct (unpickle_scaler disk SCALER_PATH) as [e1 | s] eqn:Hs.
    { rewrite (load_model_no_scaler disk p m e1 Hm Hs) in Hload.
      injection Hload as <- <-. eexists. split; [now right |].
      split; [| exact Hinfo].
      cbn [stdout]. now rewrite <- app_assoc. }
    rewrite (load_model_both disk p m s Hm Hs) in Hload. discriminate.
Qed.

Lemma not_loaded_503 (g : Globals) :
  model g = None \/ scaler g = None ->
  forall t log,
    predict_fraud g t log =
    (Raised {| status_code := 503; detail := "Model not loaded" |}, log).
Proof.
  intros H t log. unfold predict_fraud.
  destruct H as [-> | Hs]; [reflexivity |].
  rewrite Hs. destruct (model g); reflexivity.
Qed.

Lemma served_503_not_loaded
    (g : Globals) (t : TransactionRequest) (log : list call) :
  fst (predict_fraud g t log) =
  Raised {| status_code := 503; detail := "Model not loaded" |} ->
  model g = None \/ scaler g = None.
Proof.
  destruct (predict_fraud_runs g t log) as (o & calls & Heq & Hrun).
  rewrite Heq. cbn [fst]. intros Ho.
  destruct Hrun; unfold failed in Ho; try discriminate. assumption.
Qed.

(** The health endpoint tells whether predictions are served: the
    handler answers 503 for every request exactly when /health reports
    the model or the scaler as not loaded, and never answers 503 when it
    reports both as loaded.  The status field reads "healthy" on both
    endpoints whatever is loaded, and the root endpoint reports the model
    only: with the model loaded and the scaler missing it says
    [model_loaded] while every prediction is refused. *)
Theorem health_tells_whether_predictions_are_served (g : Globals) :
  (model_loaded (health g) && scaler_loaded (health g) = false <->
   forall t log,
     predict_fraud g t log =
     (Raised {| status_code := 503; detail := "Model not loaded" |}, log)) /\
  (model_loaded (health g) && scaler_loaded (health g) = true <->
   forall t log,
     fst (predict_fraud g t log) <>
     Raised {| status_code := 503; detail := "Model not loaded" |}) /\
  health_status (health g) = "healthy" /\
  root_status (root g) = "healthy" /\
  root_model_loaded (root g) = model_loaded (health g) /\
  (forall m,
     model g = Some m -> scaler g = None ->
     root_model_loaded (root g) = true /\
     forall t log,
       predict_fraud g t log =
       (Raised {| status_code := 503; detail := "Model not loaded" |}, log)).
Proof.
  assert (Hflags :
    model_loaded (health g) && scaler_loaded (health g) = false <->
    (model g = None \/ scaler g = None)).
  { unfold health. cbn.
    destruct (model g), (scaler g); cbn; split; intros H;
      first [reflexivity | discriminate | now left | now right
            | destruct H; discriminate]. }
  split; [| split; [| split; [| split; [| split]]]].
  - rewrite Hflags. split.
    + intros H t log. now apply not_loaded_503.
    + intros H. apply (served_503_not_loaded g (amount_only (Fin 0)) []).
      now rewrite H.
  - split.
    + intros Hboth t log H503.
      apply served_503_not_loaded in H503. apply Hflags in H503.
      rewrite Hboth in H503. discriminate.
    + intros H.
      destruct (model_loaded (health g) && scaler_loaded (health g)) eqn:Hb;
        [reflexivity | exfalso].
      pose proof (proj1 Hflags eq_refl) as Hnone.
      apply (H (amount_only (Fin 0)) []).
      now rewrite (not_loaded_503 g Hnone).
  - reflexivity.
  - reflexivity.
  - reflexivity.
  - intros m Hm Hs. split; [unfold root; cbn; now rewrite Hm |].
    intros t log. apply not_loaded_503. now right.
Qed.

(** Startup followed by serving.  After a startup that returned, /health
    reports both objects as loaded and no request is answered 503.
    After a startup of a fresh process that raised, every request would
    be answered 503, also when the model itself was loaded before the
    scaler step failed. *)
Theorem startup_decides_serving (disk : Disk) :
  (forall p p',
     load_model disk p = (inr tt, p') ->
     model_loaded (health (globals p')) = true /\
     scaler_loaded (health (globals p')) = true /\
     forall t log,
       fst (predict_fraud (globals p') t log) <>
       Raised {| status_code := 503; detail := "Model not loaded" |}) /\
  (forall e p',
     load_model disk fresh_process = (inl e, p') ->
     scaler_loaded (health (globals p')) = false /\
     (model_loaded (health (globals p')) = true <->
      exists m, unpickle_model disk MODEL_PATH = inr m) /\
     forall t log,
       predict_fraud (globals p') t log =
       (Raised {| status_code := 503; detail := "Model not loaded" |}, log)).
Proof.
  split.
  - intros p p' Hload.
    destruct (unpickle_model disk MODEL_PATH) as [e | m] eqn:Hm.
    { rewrite (load_model_no_model disk p e Hm) in Hload. discriminate. }
    destruct (unpickle_scaler disk SCALER_PATH) as [e | s] eqn:Hs.
    { rewrite (load_model_no_scaler disk p m e Hm Hs) in Hload.
      discriminate. }
    rewrite (load_model_both disk p m s Hm Hs) in Hload.
    injection Hload as <-. cbn [globals].
    split; [reflexivity |]. split; [reflexivity |].
    intros t log H503. apply served_503_not_loaded in H503.
    destruct H503; discriminate.
  - intros e p' Hload.
    destruct (unpickle_model disk MODEL_PATH) as [e1 | m] eqn:Hm.
    + rewrite (load_model_no_model disk fresh_process e1 Hm) in Hload.
      injection Hload as <- <-. cbn [globals snd].
      split; [reflexivity |]. split.
      * split; [discriminate | intros (m & Hm'); discriminate].
      * apply not_loaded_503. now left.
    + destruct (unpickle_scaler disk SCALER_PATH) as [e1 | s] eqn:Hs.
      * rewrite (load_model_no_scaler disk fresh_process m e1 Hm Hs)
          in Hload.
        injection Hload as <- <-. cbn [globals snd].
        split; [reflexivity |]. split.
        -- split; [intros _; now exists m | reflexivity].
        -- apply not_loaded_503. now right.
      * rewrite (load_model_both disk fresh_process m s Hm Hs) in Hload.
        discriminate.
Qed.

(* ================================================================== *)
(** ** The score in the text at the decision boundary *)
(* ================================================================== *)

Section Boundary.

(** A real within one half of an even integer, ends included, rounds to
    it. *)
Lemma rint_near_even (x : R) (n : Z) :
  Z.even n = true ->
  IZR n - 1 / 2 <= x <= IZR n + 1 / 2 -> rint x = n.
Proof.
  intros Heven [Hlo Hhi]. unfold rint.
  destruct (Rle_lt_dec (IZR n) x) as [Hge | Hlt].
  - assert (Hf : Zfloor x = n) by (apply Zfloor_eq; lra).
    rewrite Hf, Heven. rcases; try lra; reflexivity.
  - assert (Hf : Zfloor x = (n - 1)%Z).
    { apply Zfloor_eq. rewrite minus_IZR. lra. }
    rewrite Hf, minus_IZR.
    assert (Hodd : Z.even (n - 1) = false).
    { rewrite Z.even_sub, Heven. reflexivity. }
    rewrite Hodd. rcases; try lra; lia.
Qed.

Lemma format_2f_half (s : R) :
  0.495 <= s <= 0.505 -> format_2f false (Fin s) = "0.50".
Proof.
  intros Hs. unfold format_2f.
  rewrite (Rabs_pos_eq s) by lra.
  rewrite (rint_near_even (s * 100) 50) by (reflexivity || lra).
  replace (Rltb s 0) with false by (symmetry; apply Rltb_false; lra).
  reflexivity.
Qed.

End Boundary.

(** The two-decimal score of the text does not tell the decision.  Every
    unrounded score from 0.495 to 0.505 is printed as 0.50; above 0.5 the
    request is flagged and explained as an anomaly with score 0.50, and
    up to 0.5 it is explained as a normal transaction with score 0.50. *)
Theorem score_text_reads_half_on_both_sides
    (t : TransactionRequest) (n : Z) (Hflags : riskFlagCount t = Some n) :
  (forall s,
     0.5 < s <= 0.505 ->
     is_anomaly (Fin s) = true /\
     generate_explanation t (Fin s) (is_anomaly (Fin s)) =
     inr match clauses_in_scan_order t n with
         | [] =>
             "Anomaly detected (score: 0.50). Transaction pattern deviates significantly from normal behavior."
         | _ :: _ =>
             "Anomaly detected (score: 0.50). Risk factors: "
               ++ concat ", " (clauses_in_scan_order t n)
         end) /\
  (forall s,
     0.495 <= s <= 0.5 ->
     is_anomaly (Fin s) = false /\
     generate_explanation t (Fin s) (is_anomaly (Fin s)) =
     inr "Normal transaction (score: 0.50). No significant anomalies detected.").
Proof.
  split; intros s Hs.
  - assert (Hflag : is_anomaly (Fin s) = true)
      by (rewrite is_anomaly_finite; apply Rltb_true; lra).
    split; [exact Hflag |]. rewrite Hflag.
    rewrite (generate_explanation_templates t n _ _ Hflags).
    unfold template_no_indicator, template_risk_factors.
    rewrite format_2f_half by lra.
    destruct (clauses_in_scan_order t n); reflexivity.
  - assert (Hflag : is_anomaly (Fin s) = false)
      by (rewrite is_anomaly_finite; apply Rltb_false; lra).
    split; [exact Hflag |]. rewrite Hflag.
    rewrite (generate_explanation_templates t n _ _ Hflags).
    unfold template_normal. rewrite format_2f_half by lra. reflexivity.
Qed.

Lemma score_text_reads_half_on_both_sides_witness :
  riskFlagCount (amount_only (Fin 100)) = Some 0%Z /\
  is_anomaly (Fin 0.501) = true /\
  generate_explanation (amount_only (Fin 100)) (Fin 0.5)
    (is_anomaly (Fin 0.5)) =
  inr "Normal transaction (score: 0.50). No significant anomalies detected.".
Proof.
  split; [reflexivity |].
  destruct (score_text_reads_half_on_both_sides
              (amount_only (Fin 100)) 0 eq_refl) as [Habove Hbelow].
  split.
  - apply (Habove 0.501). lra.
  - apply (Hbelow 0.5). lra.
Defined.

(* ================================================================== *)
(** ** Confidence *)
(* ================================================================== *)


